(** * aesara.tensor.random.op: shape inference, node construction and
      execution of [RandomVariable]

    A shallow embedding of [src/aesara/tensor/random/op.py].  Python
    exceptions are values of an error monad, Python sequences are lists
    indexed with Python's (negative-aware) index and slice rules, symbolic
    shape entries are a small expression type, and the generator objects that
    [perform] copies or mutates live in an explicit store. *)

From Stdlib Require Import ZArith String List Lia Bool DecimalString.
From stdpp Require Import base gmap list strings.

Local Open Scope string_scope.
Local Open Scope list_scope.
Local Open Scope Z_scope.

(** ** Exceptions and the error monad *)

Inductive Exception : Type :=
| ValueError (msg : string)
| TypeError (msg : string)
| IndexError (msg : string)
| AttributeError (msg : string)
| UnboundLocalError (msg : string)
| OverflowError (msg : string).

Inductive result (A : Type) : Type :=
| Ok (a : A)
| Raise (e : Exception).

Arguments Ok {A} a.
Arguments Raise {A} e.

Definition bind {A B : Type} (m : result A) (k : A -> result B) : result B :=
  match m with
  | Ok a => k a
  | Raise e => Raise e
  end.

Declare Scope py_scope.
Delimit Scope py_scope with py.
Notation "'do' x <- m ; k" := (bind m (fun x => k))
  (at level 10, x pattern, m at level 100, k at level 200) : py_scope.
Local Open Scope py_scope.

Definition is_ok {A : Type} (m : result A) : bool :=
  match m with Ok _ => true | Raise _ => false end.

(** [map] over a fallible function, left to right, stopping at the first
    exception (a Python generator consumed by [tuple]). *)
Fixpoint mapM {A B : Type} (f : A -> result B) (l : list A) : result (list B) :=
  match l with
  | [] => Ok []
  | x :: xs => do y <- f x; do ys <- mapM f xs; Ok (y :: ys)
  end.

(** ** Python sequences *)

Module Py.

Definition len {A : Type} (l : list A) : Z := Z.of_nat (length l).

(** A slice bound [i] clipped for a sequence of length [n]. *)
Definition bound (n i : Z) : nat :=
  Z.to_nat (if i <? 0 then Z.max 0 (n + i) else Z.min i n).

(** [l[i:]] *)
Definition slice_from {A : Type} (l : list A) (i : Z) : list A :=
  drop (bound (len l) i) l.

(** [l[:i]] *)
Definition slice_to {A : Type} (l : list A) (i : Z) : list A :=
  take (bound (len l) i) l.

(** [l[i]] on a tuple or list. *)
Definition getitem {A : Type} (l : list A) (i : Z) : result A :=
  let j := if i <? 0 then len l + i else i in
  if (0 <=? j) && (j <? len l) then
    match l !! Z.to_nat j with
    | Some x => Ok x
    | None => Raise (IndexError "index out of range")
    end
  else Raise (IndexError "index out of range").

(** [(x,) * n]: a negative count gives the empty tuple. *)
Definition repeat {A : Type} (x : A) (n : Z) : list A :=
  replicate (Z.to_nat n) x.

(** [zip(a, b, c)] stops at the shortest argument. *)
Fixpoint zip3 {A B C : Type} (a : list A) (b : list B) (c : list C)
  : list (A * B * C) :=
  match a, b, c with
  | x :: a', y :: b', z :: c' => (x, y, z) :: zip3 a' b' c'
  | _, _, _ => []
  end.

(** [l.index(x)]: position of the first occurrence. *)
Fixpoint index_from (l : list string) (x : string) (k : Z) : result Z :=
  match l with
  | [] => Raise (ValueError "x is not in list")
  | y :: l' => if String.eqb y x then Ok k else index_from l' x (k + 1)
  end.

Definition index (l : list string) (x : string) : result Z :=
  index_from l x 0.

(** [x in l] *)
Definition contains (l : list string) (x : string) : bool :=
  existsb (String.eqb x) l.

End Py.

(** ** Symbolic scalars and tensor variables *)

(** A scalar of a shape graph.  A [Constant] carries [data]; the other
    variables do not. *)
Inductive ScalarVariable : Type :=
| Constant (data : Z)
| Symbol (name : string)
| Maximum (a b : ScalarVariable).

(** Modelled from the spec: [aesara.tensor.basic.constant], which is not in
    this file; [constant(v, "int64")] is the literal [v]. *)
Definition constant (v : Z) : ScalarVariable := Constant v.

(** Modelled from the spec: [aesara.tensor.basic.constant] applied to a Python
    integer with [dtype="int64"], which is not in this file.  The constant
    holds a 64-bit signed integer: an integer in that range is kept, one
    outside it is refused by the conversion. *)
Definition int64_constant (v : Z) : result Z :=
  if (- 2 ^ 63 <=? v) && (v <? 2 ^ 63) then Ok v
  else Raise (OverflowError "Python int too large to convert to C long").

(** [getattr(s, "data", s) == 1]: a constant compares its data with [1]; a
    variable without [data] is compared itself, and is not [1]. *)
Definition data_eq_1 (s : ScalarVariable) : bool :=
  match s with
  | Constant d => d =? 1
  | _ => false
  end.

(** A tensor-typed graph variable.  Each dimension carries its symbolic
    length and the static flag of the variable's type. *)
Record TensorVariable : Type := mkTensorVariable {
  tv_name : string;
  dims : list (ScalarVariable * bool)
}.

Definition shape (p : TensorVariable) : list ScalarVariable := (dims p).*1.
Definition broadcastable (p : TensorVariable) : list bool := (dims p).*2.
Definition ndim (p : TensorVariable) : Z := Py.len (broadcastable p).

(** ** [default_shape_from_params] *)

Definition default_shape_from_params
    (ndim_supp : Z) (dist_params : list TensorVariable) (rep_param_idx : Z)
    (param_shapes : option (list (list ScalarVariable)))
  : result (list ScalarVariable) :=
  if ndim_supp <=? 0 then
    Raise (ValueError "ndim_supp must be greater than 0")
  else
    match param_shapes with
    | Some param_shapes =>
        do ref_param <- Py.getitem param_shapes rep_param_idx;
        do d <- Py.getitem ref_param (- ndim_supp);
        Ok [d]
    | None =>
        do ref_param <- Py.getitem dist_params rep_param_idx;
        if ndim ref_param <? ndim_supp then
          Raise (ValueError
            "Reference parameter does not match the expected dimensions")
        else Ok (Py.slice_from (shape ref_param) (- ndim_supp))
    end.

(** ** The [RandomVariable] operation *)

(** A dtype as a caller can give it: by name, or by its index in
    [all_dtypes]. *)
Inductive DtypeArg : Type :=
| DtStr (s : string)
| DtIdx (i : Z).

(** Python truthiness of an optional dtype ([None], the empty string and [0]
    are false). *)
Definition truthy (d : option DtypeArg) : bool :=
  match d with
  | None => false
  | Some (DtStr s) => negb (String.eqb s "")
  | Some (DtIdx i) => negb (i =? 0)
  end.

(** [a or b] *)
Definition py_or (a b : option DtypeArg) : option DtypeArg :=
  if truthy a then a else b.

(** The [ndims_params] argument before it is checked: a [Sequence], or some
    other object. *)
Inductive NdimsParamsArg : Type :=
| IsSequence (l : list Z)
| NotSequence.

(** Attributes a subclass may define at class level; [__init__] falls back on
    them through [getattr]. *)
Record ClassAttrs : Type := mkClassAttrs {
  cls_name : option string;
  cls_ndim_supp : option Z;
  cls_ndims_params : option NdimsParamsArg;
  cls_dtype : option DtypeArg;
  cls_inplace : option bool
}.

Record RandomVariable : Type := mkRandomVariable {
  name : string;
  ndim_supp : Z;
  ndims_params : list Z;
  dtype : option DtypeArg;
  inplace : bool;
  destroy_map : option (gmap nat (list nat))
}.

(** [getattr(self, attr)] without a default. *)
Definition getattr {A : Type} (attr : string) (v : option A) : result A :=
  match v with
  | Some a => Ok a
  | None => Raise (AttributeError attr)
  end.

(** [RandomVariable.__init__] *)
Definition __init__ (cls : ClassAttrs)
    (name_ : option string) (ndim_supp_ : option Z)
    (ndims_params_ : option NdimsParamsArg) (dtype_ : option DtypeArg)
    (inplace_ : option bool) : result RandomVariable :=
  do self_name <-
    match name_ with
    | Some s => if String.eqb s "" then getattr "name" (cls_name cls) else Ok s
    | None => getattr "name" (cls_name cls)
    end;
  do self_ndim_supp <-
    match ndim_supp_ with
    | Some n => Ok n
    | None => getattr "ndim_supp" (cls_ndim_supp cls)
    end;
  do self_ndims_params <-
    match ndims_params_ with
    | Some a => Ok a
    | None => getattr "ndims_params" (cls_ndims_params cls)
    end;
  let self_dtype := py_or dtype_ (cls_dtype cls) in
  let self_inplace :=
    match inplace_ with
    | Some b => b
    | None => default false (cls_inplace cls)
    end in
  match self_ndims_params with
  | NotSequence =>
      Raise (TypeError "Parameter ndims_params must be sequence type.")
  | IsSequence l =>
      Ok {| name := self_name;
            ndim_supp := self_ndim_supp;
            ndims_params := l;
            dtype := self_dtype;
            inplace := self_inplace;
            destroy_map :=
              if self_inplace then Some {[ 0%nat := [0%nat] ]} else None |}
  end.

(** The policy [__init__] settles on. *)
Definition resolved_inplace (cls : ClassAttrs) (inplace_ : option bool) : bool :=
  match inplace_ with
  | Some b => b
  | None => default false (cls_inplace cls)
  end.

(** ** Collaborators of the graph engine

    Functions of other modules that [_infer_shape], [compute_bcast] and
    [make_node] call.  The operation is defined over any implementation of
    them. *)

(** One entry of a subscript tuple: [slice(None)] or an integer. *)
Inductive Index : Type :=
| SliceAll
| At (i : Z).

Class GraphEngine : Type := {
  (** [aesara.tensor.random.utils.params_broadcast_shapes] *)
  params_broadcast_shapes :
    list (list ScalarVariable) -> list Z -> result (list (list ScalarVariable));
  (** [aesara.tensor.extra_ops.broadcast_shape_iter(..., arrays_are_shapes=True)] *)
  broadcast_shape_iter :
    list (list ScalarVariable) -> result (list ScalarVariable);
  (** [p[ind_slice]] on a tensor variable *)
  subscript : TensorVariable -> list Index -> result TensorVariable;
  (** [optimize_graph(FunctionGraph(outputs, [ShapeFeature()], clone=True),
      custom_opt=topo_constant_folding).outputs] *)
  optimize_graph : list ScalarVariable -> list ScalarVariable;
  (** [aesara.tensor.type.all_dtypes] *)
  all_dtypes : list string;
  (** [config.floatX] *)
  floatX : string
}.

(** Modelled from the spec: [aesara.tensor.basic.get_vector_length], which is
    not in this file.  A size specification is an ordered sequence of
    symbolic scalars, so its length is static. *)
Definition get_vector_length (size : list ScalarVariable) : Z := Py.len size.

(** Modelled from the spec: [aesara.tensor.shape.shape_tuple], which is not
    in this file.  The parameter's own shape-query result, entry by entry,
    with the literal [1] at the dimensions known to have length [1]. *)
Definition shape_tuple (p : TensorVariable) : list ScalarVariable :=
  map (fun sb : ScalarVariable * bool =>
         if data_eq_1 sb.1 || sb.2 then constant 1 else sb.1) (dims p).

Section ShapeInference.

Context {engine : GraphEngine}.

(** [RandomVariable._shape_from_params] *)
Definition _shape_from_params (self : RandomVariable)
    (dist_params : list TensorVariable)
    (param_shapes : option (list (list ScalarVariable)))
  : result (list ScalarVariable) :=
  default_shape_from_params (ndim_supp self) dist_params 0 param_shapes.

(** The local function [slice_ind_dims] of [_infer_shape]. *)
Definition slice_ind_dims (p : TensorVariable) (ps : list ScalarVariable)
    (n : Z) : result (TensorVariable * list ScalarVariable) :=
  let shape := ps in
  if n =? 0 then Ok (p, shape)
  else
    let ind_slice :=
      Py.repeat SliceAll (ndim p - n) ++ Py.repeat (At 0) n in
    let ind_shape :=
      map (fun sb : ScalarVariable * bool =>
             if negb sb.2 then sb.1 else constant 1)
          (zip (Py.slice_to shape (- n))
               (Py.slice_to (broadcastable p) (- n))) in
    do p_ind <- subscript p ind_slice;
    Ok (p_ind, ind_shape).

(** [param_shapes or [shape_tuple(p) for p in dist_params]] *)
Definition param_shapes_or (param_shapes : option (list (list ScalarVariable)))
    (dist_params : list TensorVariable) : list (list ScalarVariable) :=
  match param_shapes with
  | Some (s :: l) => s :: l
  | _ => map shape_tuple dist_params
  end.

(** [RandomVariable._infer_shape].  The result is the sequence of entries
    of the shape, whether the source returns [size] itself, a tuple, or the
    empty constant vector. *)
Definition _infer_shape (self : RandomVariable)
    (size : list ScalarVariable) (dist_params : list TensorVariable)
    (param_shapes : option (list (list ScalarVariable)))
  : result (list ScalarVariable) :=
  let size_len := get_vector_length size in
  if (ndim_supp self =? 0) && (0 <? size_len) then Ok size
  else
    do param_shapes <-
      params_broadcast_shapes (param_shapes_or param_shapes dist_params)
                              (ndims_params self);
    do params_ind_slice <-
      mapM (fun a : TensorVariable * list ScalarVariable * Z =>
              slice_ind_dims a.1.1 a.1.2 a.2)
           (Py.zip3 dist_params param_shapes (ndims_params self));
    do ind <-
      match params_ind_slice with
      | [(ind_param, ind_shape)] => Ok (Py.len ind_shape, Some ind_shape)
      | _ :: _ :: _ =>
          do shape_ind <- broadcast_shape_iter (params_ind_slice.*2);
          Ok (Py.len shape_ind, Some shape_ind)
      | [] => Ok (0, None)
      end;
    let '(ndim_ind, shape_ind) := ind in
    do supp_reps <-
      (if ndim_supp self =? 0 then
         let shape_reps := size in
         let shape_reps :=
           if 0 <? ndim_ind then Py.slice_to shape_reps (- ndim_ind)
           else shape_reps in
         Ok ([], Py.len shape_reps, shape_reps)
       else
         do shape_supp <-
           _shape_from_params self dist_params (Some param_shapes);
         Ok (shape_supp, size_len, size));
    let '(shape_supp, ndim_reps, shape_reps) := supp_reps in
    let ndim_shape := ndim_supp self + ndim_ind + ndim_reps in
    if ndim_shape =? 0 then Ok []
    else
      match shape_ind with
      | Some shape_ind => Ok (shape_reps ++ shape_ind ++ shape_supp)
      | None =>
          Raise (UnboundLocalError
            "local variable 'shape_ind' referenced before assignment")
      end.

(** [RandomVariable.compute_bcast] *)
Definition compute_bcast (self : RandomVariable)
    (dist_params : list TensorVariable) (size : list ScalarVariable)
  : result (list bool) :=
  do shape <- _infer_shape self size dist_params None;
  let folded_shape := optimize_graph shape in
  Ok (map data_eq_1 folded_shape).

End ShapeInference.

(** ** Node construction *)

(** The type of a graph variable, as far as [make_node] inspects it. *)
Inductive VarType : Type :=
| RandomStateType
| RandomGeneratorType
| OtherType.

(** [isinstance(t, RandomType)] *)
Definition is_RandomType (t : VarType) : bool :=
  match t with
  | RandomStateType | RandomGeneratorType => true
  | OtherType => false
  end.

(** A generator-state variable: the shared variable [make_node] creates with
    [aesara.shared(np.random.default_rng())], or one the caller supplies. *)
Inductive RngVariable : Type :=
| SharedDefaultRng
| GraphRng (id : string) (t : VarType).

Definition rng_type (r : RngVariable) : VarType :=
  match r with
  | SharedDefaultRng => RandomGeneratorType
  | GraphRng _ t => t
  end.

(** The generator handle passes the check of [make_node]. *)
Definition rng_accepted (rng : option RngVariable) : Prop :=
  match rng with
  | None => True
  | Some r => is_RandomType (rng_type r) = true
  end.

(** The [size] argument before normalisation. *)
Inductive SizeArg : Type :=
| SizeNone
| SizeInt (n : Z)
| SizeSeq (l : list ScalarVariable).

(** Modelled from the spec: [aesara.tensor.random.utils.normalize_size_param],
    which is not in this file.  [None], a scalar and a sequence all become an
    explicit, possibly empty, ordered sequence. *)
Definition normalize_size_param (size : SizeArg) : list ScalarVariable :=
  match size with
  | SizeNone => []
  | SizeInt n => [constant n]
  | SizeSeq l => l
  end.

Record TensorType : Type := mkTensorType {
  tt_dtype : string;
  tt_broadcastable : list bool
}.

(** [Apply(self, inputs, outputs)] with
    [inputs = (rng, size, dtype_idx) + dist_params] and
    [outputs = (rng.type(), out_var)]. *)
Record Apply : Type := mkApply {
  op : RandomVariable;
  in_rng : RngVariable;
  in_size : list ScalarVariable;
  in_dtype_idx : Z;
  in_dist_params : list TensorVariable;
  out_rng : VarType;
  out_var : TensorType
}.

Section NodeBuilder.

Context {engine : GraphEngine}.

(** The dtype block of [make_node], from [dtype = self.dtype or dtype] to
    [dtype = all_dtypes[dtype_idx.data]]: the pair [(dtype, dtype_idx)]. *)
Definition resolve_dtype (self : RandomVariable) (dtype_ : option DtypeArg)
  : result (string * Z) :=
  let dtype_ := py_or (dtype self) dtype_ in
  do dtype_ <-
    match dtype_ with
    | Some (DtStr s) =>
        if String.eqb s "floatX" then Ok (DtStr floatX)
        else if negb (Py.contains all_dtypes s) then
          Raise (TypeError "dtype is unspecified")
        else Ok (DtStr s)
    | Some (DtIdx i) => Ok (DtIdx i)
    | None => Raise (TypeError "dtype is unspecified")
    end;
  match dtype_ with
  | DtStr s =>
      do i <- Py.index all_dtypes s;
      do dtype_idx <- int64_constant i;
      Ok (s, dtype_idx)
  | DtIdx i =>
      do dtype_idx <- int64_constant i;
      do s <- Py.getitem all_dtypes dtype_idx;
      Ok (s, dtype_idx)
  end.

(** [RandomVariable.make_node] *)
Definition make_node (self : RandomVariable) (rng : option RngVariable)
    (size : SizeArg) (dtype_ : option DtypeArg)
    (dist_params : list TensorVariable) : result Apply :=
  let size := normalize_size_param size in
  do rng <-
    match rng with
    | None => Ok SharedDefaultRng
    | Some r =>
        if negb (is_RandomType (rng_type r)) then
          Raise (TypeError
            "The type of rng should be an instance of either RandomGeneratorType or RandomStateType")
        else Ok r
    end;
  do bcast <- compute_bcast self dist_params size;
  do dt <- resolve_dtype self dtype_;
  let '(dtype_, dtype_idx) := dt in
  let outtype := {| tt_dtype := dtype_; tt_broadcastable := bcast |} in
  Ok {| op := self;
        in_rng := rng;
        in_size := size;
        in_dtype_idx := dtype_idx;
        in_dist_params := dist_params;
        out_rng := rng_type rng;
        out_var := outtype |}.

(** [RandomVariable.infer_shape]: the shapes of the two outputs, from the
    shapes of the inputs after the first three. *)
Definition infer_shape (self : RandomVariable) (node : Apply)
    (param_shapes : list (list ScalarVariable))
  : result (option (list ScalarVariable) * list ScalarVariable) :=
  do shape <-
    _infer_shape self (in_size node) (in_dist_params node) (Some param_shapes);
  Ok (None, shape).

End NodeBuilder.

(** ** Gradients *)

(** Modelled from the spec: [aesara.gradient.grad_undefined], which is not in
    this file.  It returns a variable that marks the gradient with respect to
    input [x_pos] of [op] as undefined, with a comment; it does not raise. *)
Record NullVariable (V : Type) : Type := grad_undefined {
  null_op : RandomVariable;
  null_x_pos : nat;
  null_x : V;
  null_comment : string
}.

Arguments grad_undefined {V}.
Arguments null_op {V}.
Arguments null_x_pos {V}.
Arguments null_x {V}.
Arguments null_comment {V}.

(** [enumerate(l)] *)
Definition enumerate {A : Type} (l : list A) : list (nat * A) :=
  imap (fun k x => (k, x)) l.

(** [RandomVariable.grad] *)
Definition grad {V G : Type} (self : RandomVariable) (inputs : list V)
    (outputs : list G) : list (NullVariable V) :=
  map (fun kx : nat * V =>
         grad_undefined self kx.1 kx.2
           "No gradient defined for random variables")
      (enumerate inputs).

(** [RandomVariable.R_op]: [None] stands for an undefined directional
    derivative. *)
Definition R_op {V E T : Type} (self : RandomVariable) (inputs : list V)
    (eval_points : list E) : list (option T) :=
  map (fun _ => None) eval_points.

(** ** Execution *)

(** Generator objects are identified by their address in a store. *)
Abbreviation loc := positive.

(** What the sampling kernel, the copy of a generator and the dtype coercion
    work on. *)
Class Runtime : Type := {
  (** the internal position of a generator *)
  rng_state : Type;
  (** the contents of a numeric value *)
  payload : Type;
  (** [getattr(rng, name)] applied to the arguments and the size: the draw
      advances the generator it is given and returns a value, or raises *)
  numpy_method :
    string -> rng_state -> list payload -> option (list Z) ->
    rng_state * result (option string * payload);
  (** [aesara.misc.safe_asarray._asarray(value, dtype=...)] *)
  _asarray : option string * payload -> string -> result payload
}.

Section Executor.

Context {rt : Runtime}.

(** A sampled value: [Some dt] is the dtype of an [np.ndarray], [None]
    marks a value that is not an array. *)
Definition Value : Type := (option string * payload)%type.

(** The store of generator objects and the two output cells. *)
Record Memory : Type := mkMemory {
  generators : gmap loc rng_state;
  rng_var_out : option loc;
  smpl_out : option (string * payload)
}.

(** [copy(rng)]: a new generator object with the same internal position. *)
Definition copy (rng : loc) (m : Memory) : option (loc * Memory) :=
  st ← generators m !! rng;
  let rng' := fresh (dom (generators m)) in
  Some (rng', mkMemory (<[rng' := st]> (generators m))
                       (rng_var_out m) (smpl_out m)).

(** [RandomVariable.rng_fn]: the draw on the generator at [rng], in
    place. *)
Definition rng_fn (self : RandomVariable) (rng : loc) (args : list payload)
    (size : option (list Z)) (m : Memory)
  : option (result Value * Memory) :=
  st ← generators m !! rng;
  let '(st', r) := numpy_method (name self) st args size in
  Some (r, mkMemory (<[rng := st']> (generators m))
                    (rng_var_out m) (smpl_out m)).

(** The coercion at the end of [perform]: a value that is not an array, or
    an array of another dtype than the output's, goes through
    [_asarray]. *)
Definition coerce (out_var : TensorType) (smpl_val : Value) : result payload :=
  match smpl_val.1 with
  | Some dt =>
      if negb (String.eqb dt (tt_dtype out_var)) then
        _asarray smpl_val (tt_dtype out_var)
      else Ok smpl_val.2
  | None => _asarray smpl_val (tt_dtype out_var)
  end.

(** [RandomVariable.perform] on the inputs [rng], [size], [dtype] and the
    remaining [args].  The
    result is [None] only for a store that does not hold the generator
    [rng]. *)
Definition perform (self : RandomVariable) (node : Apply)
    (rng : loc) (size : list Z) (dtype_ : Z) (args : list payload)
    (m : Memory) : option (result unit * Memory) :=
  let out_var := out_var node in
  let size := if Py.len size =? 0 then None else Some size in
  '(rng, m) ← (if negb (inplace self) then copy rng m else Some (rng, m));
  let m := mkMemory (generators m) (Some rng) (smpl_out m) in
  '(r, m) ← rng_fn self rng args size m;
  match r with
  | Raise e => Some (Raise e, m)
  | Ok smpl_val =>
      match coerce out_var smpl_val with
      | Raise e => Some (Raise e, m)
      | Ok v =>
          Some (Ok tt, mkMemory (generators m) (rng_var_out m)
                                (Some (tt_dtype out_var, v)))
      end
  end.

(** The size the kernel is to receive. *)
Definition kernel_size (size : list Z) : option (list Z) :=
  match size with
  | [] => None
  | _ :: _ => Some size
  end.

(** What [perform] leaves in the sample cell and reports, given the
    kernel's answer. *)
Definition emitted (node : Apply) (answer : result Value)
    (old : option (string * payload))
  : result unit * option (string * payload) :=
  match answer with
  | Raise e => (Raise e, old)
  | Ok v =>
      match coerce (out_var node) v with
      | Raise e => (Raise e, old)
      | Ok x => (Ok tt, Some (tt_dtype (out_var node), x))
      end
  end.

End Executor.

(** ** A reference implementation of the collaborators

    Used to run the operation on concrete inputs. *)

Module Reference.

(** The local function [max_bcast]: [1] broadcasts against any value,
    otherwise the maximum is taken. *)
Definition max_bcast (x y : ScalarVariable) : ScalarVariable :=
  if data_eq_1 x then y else if data_eq_1 y then x else Maximum x y.

(** [zip_longest(a, b, fillvalue=1)] combined with [max_bcast]. *)
Fixpoint max_bcast_longest (a b : list ScalarVariable) : list ScalarVariable :=
  match a, b with
  | x :: a', y :: b' => max_bcast x y :: max_bcast_longest a' b'
  | x :: a', [] => max_bcast x (constant 1) :: max_bcast_longest a' []
  | [], b => map (max_bcast (constant 1)) b
  end.

(** Modelled from the spec: [aesara.tensor.random.utils.params_broadcast_shapes],
    which is not in this file.  The batch dimensions of the parameters (all
    but the trailing [ndim_param] ones) are aligned from the trailing
    dimension and combined pairwise with the maximum, [1] broadcasting
    against any value; every parameter gets the combined batch dimensions
    in front of its own trailing [ndim_param] dimensions. *)
Definition params_broadcast_shapes (param_shapes : list (list ScalarVariable))
    (ndims_params : list Z) : result (list (list ScalarVariable)) :=
  let rev_extra_dims :=
    fold_left
      (fun acc (a : Z * list ScalarVariable) =>
         let extras := Py.slice_to a.2 (Py.len a.2 - a.1) in
         max_bcast_longest (rev extras) acc)
      (zip ndims_params param_shapes) [] in
  let extra_dims := rev rev_extra_dims in
  Ok (map (fun a : Z * list ScalarVariable =>
             if 0 <? a.1 then extra_dims ++ Py.slice_from a.2 (- a.1)
             else extra_dims)
          (zip ndims_params param_shapes)).

(** One aligned axis of two shapes: [1] gives way to the other length; two
    different constants do not broadcast. *)
Definition broadcast_dim (x y : ScalarVariable) : result ScalarVariable :=
  match x, y with
  | Constant a, Constant b =>
      if a =? 1 then Ok y
      else if b =? 1 then Ok x
      else if a =? b then Ok x
      else Raise (ValueError "Could not broadcast dimensions")
  | _, _ => Ok (max_bcast x y)
  end.

Fixpoint broadcast_rev (a b : list ScalarVariable)
  : result (list ScalarVariable) :=
  match a, b with
  | x :: a', y :: b' =>
      do d <- broadcast_dim x y;
      do r <- broadcast_rev a' b';
      Ok (d :: r)
  | a, [] => Ok a
  | [], b => Ok b
  end.

(** Modelled from the spec: [aesara.tensor.extra_ops.broadcast_shape_iter],
    which is not in this file.  The shapes are right-aligned; an axis is
    [1] if all its entries are [1], otherwise the one length that is not
    [1]; two distinct lengths other than [1] are a shape error; the rank is
    the largest rank. *)
Definition broadcast_shape_iter (shapes : list (list ScalarVariable))
  : result (list ScalarVariable) :=
  do r <- fold_left
            (fun acc s => do a <- acc; broadcast_rev a (rev s))
            shapes (Ok []);
  Ok (rev r).

(** Modelled from the spec: the subscript of a tensor variable, which is
    not in this file.  More indices than dimensions are an error; an
    integer index removes its dimension, a full slice keeps it. *)
Definition subscript (p : TensorVariable) (ind : list Index)
  : result TensorVariable :=
  if ndim p <? Py.len ind then
    Raise (IndexError "too many indices for array")
  else
    Ok {| tv_name := tv_name p;
          dims :=
            (List.filter (fun di : (ScalarVariable * bool) * Index =>
                            match di.2 with SliceAll => true | At _ => false end)
                         (zip (dims p) ind)).*1
            ++ drop (length ind) (dims p) |}.

(** Constant folding of one shape entry. *)
Fixpoint fold_constants (s : ScalarVariable) : ScalarVariable :=
  match s with
  | Maximum a b =>
      match fold_constants a, fold_constants b with
      | Constant x, Constant y => Constant (Z.max x y)
      | a', b' => Maximum a' b'
      end
  | _ => s
  end.

(** Modelled from the spec: building and constant-folding the shape
    sub-graph, which is done by code that is not in this file.  Every entry
    comes back as a literal, or as the symbolic expression if it did not
    fold. *)
Definition optimize_graph (outputs : list ScalarVariable)
  : list ScalarVariable :=
  map fold_constants outputs.

(** Modelled from the spec: [aesara.tensor.type.all_dtypes], which is not in
    this file.  A fixed, ordered catalogue: booleans, signed and unsigned
    integers, floating-point and complex numbers of the standard widths. *)
Definition all_dtypes : list string :=
  ["bool"; "int8"; "int16"; "int32"; "int64";
   "uint8"; "uint16"; "uint32"; "uint64";
   "float16"; "float32"; "float64"; "complex64"; "complex128"].

Definition engine : GraphEngine :=
  Build_GraphEngine params_broadcast_shapes broadcast_shape_iter subscript
                    optimize_graph all_dtypes "float64".

(** A deterministic kernel for tests: the generator is a counter, a draw
    returns the counter as a [float64] array and advances it by one. *)
Definition counter_runtime : Runtime :=
  Build_Runtime Z Z
    (fun _ st _ _ => (st + 1, Ok (Some "float64", st)))
    (fun v _ => Ok v.2).

(** A kernel for tests that records its calls: the generator is the list
    of the sizes it was asked for, latest first. *)
Definition recording_runtime : Runtime :=
  Build_Runtime (list (option (list Z))) Z
    (fun _ st _ size => (size :: st, Ok (Some "int64", Py.len st)))
    (fun v _ => Ok v.2).

(** A kernel for tests that always raises, after advancing the generator. *)
Definition failing_runtime : Runtime :=
  Build_Runtime Z Z
    (fun _ st _ _ => (st + 1, Raise (ValueError "scale < 0")))
    (fun v _ => Ok v.2).

End Reference.

(** ** Concrete inputs *)

Module Inputs.

(** A parameter with the given constant shape; a dimension of length [1]
    is broadcastable. *)
Definition tensor (n : string) (l : list Z) : TensorVariable :=
  mkTensorVariable n (map (fun d => (Constant d, d =? 1)) l).

(** Operations as [__init__] leaves them, without class-level
    attributes. *)
Definition normal_rv : RandomVariable :=
  mkRandomVariable "normal" 0 [0; 0] (Some (DtStr "floatX")) false None.
Definition vector_rv : RandomVariable :=
  mkRandomVariable "dirichlet" 1 [1] None false None.
Definition matrix_rv : RandomVariable :=
  mkRandomVariable "wishart" 2 [2] None false None.
Definition count_rv : RandomVariable :=
  mkRandomVariable "multinomial" 1 [0; 1] None false None.
Definition inplace_rv : RandomVariable :=
  mkRandomVariable "normal" 0 [0; 0] (Some (DtStr "floatX")) true
                   (Some {[ 0%nat := [0%nat] ]}).

(** A class that defines every attribute but [inplace], as the subclasses
    for the distributions do. *)
Definition normal_class : ClassAttrs :=
  mkClassAttrs (Some "normal") (Some 0) (Some (IsSequence [0; 0]))
               (Some (DtStr "floatX")) None.

(** A class that defines nothing. *)
Definition bare_class : ClassAttrs := mkClassAttrs None None None None None.

End Inputs.

Module ExecutionInputs.

Definition node : Apply :=
  mkApply Inputs.normal_rv SharedDefaultRng [] 11
          [Inputs.tensor "mu" []; Inputs.tensor "sigma" []]
          RandomGeneratorType (mkTensorType "float64" []).

(** A store with one generator, at position [10]. *)
Definition counter_memory : @Memory Reference.counter_runtime :=
  @mkMemory Reference.counter_runtime {[ 1%positive := 10 ]} None None.

(** A store with one generator that has not been called. *)
Definition recording_memory : @Memory Reference.recording_runtime :=
  @mkMemory Reference.recording_runtime {[ 1%positive := [] ]} None None.

(** A store with one generator for the kernel that raises. *)
Definition failing_memory : @Memory Reference.failing_runtime :=
  @mkMemory Reference.failing_runtime {[ 1%positive := 10 ]} None
            (Some ("float64", 7)).

End ExecutionInputs.

(** ** Display *)

(** [str] of a Python integer. *)
Definition str_int (z : Z) : string := NilZero.string_of_int (Z.to_int z).

(** [str] of a tuple of integers: [()], [(1,)], [(0, 0)]. *)
Definition str_tuple (l : list Z) : string :=
  match l with
  | [] => "()"
  | [x] => String.append "(" (String.append (str_int x) ",)")
  | _ =>
      String.append "("
        (String.append (String.concat ", " (map str_int l)) ")")
  end.

(** [str] of the [dtype] attribute. *)
Definition str_dtype (d : option DtypeArg) : string :=
  match d with
  | None => "None"
  | Some (DtStr s) => s
  | Some (DtIdx i) => str_int i
  end.

(** [str] of a boolean. *)
Definition str_bool (b : bool) : string := if b then "True" else "False".

(** [RandomVariable.__str__]: the name, then the properties after the first
    in braces. *)
Definition __str__ (self : RandomVariable) : string :=
  let props_str :=
    String.concat ", "
      [str_int (ndim_supp self); str_tuple (ndims_params self);
       str_dtype (dtype self); str_bool (inplace self)] in
  String.append (name self)
    (String.append "_rv{" (String.append props_str "}")).

(** ** Facts about Python sequences *)

Lemma len_nonneg {A : Type} (l : list A) : 0 <= Py.len l.
Proof. unfold Py.len. lia. Qed.

Lemma len_pos {A : Type} (l : list A) : l <> [] -> 0 < Py.len l.
Proof. destruct l; [congruence | unfold Py.len; simpl; lia]. Qed.

Lemma len_zero {A : Type} (l : list A) : Py.len l = 0 <-> l = [].
Proof.
  unfold Py.len. destruct l; simpl; split; intros H; try done; lia.
Qed.

Lemma slice_from_length {A : Type} (l : list A) (n : Z) :
  0 < n -> n <= Py.len l -> Py.len (Py.slice_from l (- n)) = n.
Proof.
  intros Hn Hl. unfold Py.slice_from, Py.bound, Py.len in *.
  rewrite length_drop.
  destruct (Z.ltb_spec (- n) 0); lia.
Qed.

Lemma getitem_short {A : Type} (l : list A) (n : Z) :
  Py.len l < n -> Py.getitem l (- n) = Raise (IndexError "index out of range").
Proof.
  intros Hn. pose proof (len_nonneg l) as Hl. unfold Py.getitem.
  destruct (Z.ltb_spec (- n) 0); [|lia].
  destruct (Z.leb_spec 0 (Py.len l + - n)); [lia | reflexivity].
Qed.

Lemma getitem_neg {A : Type} (l : list A) (n : Z) :
  0 < n -> n <= Py.len l ->
  exists x, l !! (length l - Z.to_nat n)%nat = Some x
            /\ Py.getitem l (- n) = Ok x.
Proof.
  intros Hn Hl. unfold Py.getitem, Py.len in *.
  destruct (Z.ltb_spec (- n) 0); [|lia].
  destruct (Z.leb_spec 0 (Z.of_nat (length l) + - n)); [|lia].
  destruct (Z.ltb_spec (Z.of_nat (length l) + - n) (Z.of_nat (length l))); [|lia].
  replace (Z.to_nat (Z.of_nat (length l) + - n))
    with (length l - Z.to_nat n)%nat by lia.
  destruct (l !! (length l - Z.to_nat n)%nat) as [x|] eqn:Hx.
  - by exists x.
  - apply lookup_ge_None in Hx. lia.
Qed.

Lemma index_from_In (l : list string) (x : string) (k : Z) :
  In x l -> exists i, Py.index_from l x k = Ok i /\ k <= i < k + Py.len l
    /\ l !! Z.to_nat (i - k) = Some x.
Proof.
  revert k. induction l as [|y l IH]; intros k Hin; [destruct Hin|].
  simpl. destruct (String.eqb_spec y x) as [->|Hne].
  - exists k. unfold Py.len. simpl. replace (k - k) with 0 by lia.
    repeat split; [lia | lia].
  - destruct Hin as [->|Hin]; [congruence|].
    destruct (IH (k + 1) Hin) as (i & Hi & Hr & Hl).
    exists i. unfold Py.len in *. simpl length. repeat split; [done | lia | lia |].
    replace (Z.to_nat (i - k)) with (S (Z.to_nat (i - (k + 1)))) by lia.
    exact Hl.
Qed.

(** [all_dtypes[all_dtypes.index(d)]] is [d]. *)
Lemma getitem_index (l : list string) (x : string) :
  In x l -> exists i, Py.index l x = Ok i /\ Py.getitem l i = Ok x.
Proof.
  intros Hin. destruct (index_from_In l x 0 Hin) as (i & Hi & Hr & Hl).
  exists i. split; [exact Hi|]. unfold Py.getitem.
  destruct (Z.ltb_spec i 0); [lia|].
  destruct (Z.leb_spec 0 i); [|lia].
  destruct (Z.ltb_spec i (Py.len l)); [|lia]. simpl.
  replace (i - 0) with i in Hl by lia. by rewrite Hl.
Qed.

Lemma contains_In (l : list string) (x : string) :
  Py.contains l x = true <-> In x l.
Proof.
  unfold Py.contains. rewrite existsb_exists. split.
  - intros (y & Hy & Heq). apply String.eqb_eq in Heq. by subst.
  - intros Hin. exists x. split; [done | apply String.eqb_refl].
Qed.

(** ** Further facts about sequences *)

Lemma getitem_in_range {A : Type} (l : list A) (i : Z) :
  - Py.len l <= i < Py.len l ->
  exists x, Py.getitem l i = Ok x
            /\ l !! Z.to_nat (i mod Py.len l) = Some x.
Proof.
  intros Hi. unfold Py.getitem.
  set (j := if i <? 0 then Py.len l + i else i).
  assert (Hj : 0 <= j < Py.len l /\ j = i mod Py.len l).
  { unfold j. destruct (Z.ltb_spec i 0).
    - split; [lia|]. apply Z.mod_unique with (q := -1); lia.
    - split; [lia|]. symmetry. apply Z.mod_small. lia. }
  destruct Hj as [Hr Hm].
  destruct (Z.leb_spec 0 j); [|lia].
  destruct (Z.ltb_spec j (Py.len l)); [|lia]. simpl.
  rewrite <- Hm.
  destruct (l !! Z.to_nat j) as [x|] eqn:Hx; [by exists x|].
  apply lookup_ge_None in Hx. unfold Py.len in *. lia.
Qed.

Lemma getitem_out_of_range {A : Type} (l : list A) (i : Z) :
  i < - Py.len l \/ Py.len l <= i ->
  Py.getitem l i = Raise (IndexError "index out of range").
Proof.
  intros Hi. pose proof (len_nonneg l). unfold Py.getitem.
  destruct (Z.ltb_spec i 0).
  - destruct (Z.leb_spec 0 (Py.len l + i)); [lia | done].
  - destruct (Z.leb_spec 0 i); [|lia].
    destruct (Z.ltb_spec i (Py.len l)); [lia | done].
Qed.

Lemma index_from_Ok (l : list string) (x : string) (k i : Z) :
  Py.index_from l x k = Ok i ->
  k <= i < k + Py.len l /\ l !! Z.to_nat (i - k) = Some x.
Proof.
  revert k. induction l as [|y l IH]; intros k H; [discriminate|].
  simpl in H. unfold Py.len. simpl length.
  destruct (String.eqb_spec y x) as [->|Hne].
  - injection H as <-. replace (k - k) with 0 by lia. split; [lia | done].
  - apply IH in H as [Hr Hl]. unfold Py.len in Hr. split; [lia|].
    replace (Z.to_nat (i - k)) with (S (Z.to_nat (i - (k + 1)))) by lia.
    exact Hl.
Qed.

(** [l[l.index(x)]] is [x]. *)
Lemma index_getitem (l : list string) (x : string) (i : Z) :
  Py.index l x = Ok i -> Py.getitem l i = Ok x.
Proof.
  intros H. apply index_from_Ok in H as [Hr Hl].
  replace (i - 0) with i in Hl by lia.
  destruct (getitem_in_range l i) as (y & Hy & Hm); [lia|].
  rewrite Z.mod_small in Hm by lia. congruence.
Qed.

(** ** Shape inference *)

Section ShapeFacts.

Context {engine : GraphEngine}.

(** The default rule applied to the parameters themselves gives the
    trailing [ndim_supp] dimensions of the reference parameter. *)
Lemma default_shape_from_dist_params (n : Z) (dist_params : list TensorVariable)
    (idx : Z) (ref_param : TensorVariable) :
  0 < n -> Py.getitem dist_params idx = Ok ref_param -> n <= ndim ref_param ->
  default_shape_from_params n dist_params idx None
    = Ok (Py.slice_from (shape ref_param) (- n))
  /\ Py.len (Py.slice_from (shape ref_param) (- n)) = n.
Proof.
  intros Hn Hget Hle. unfold default_shape_from_params.
  destruct (Z.leb_spec n 0); [lia|]. rewrite Hget. simpl.
  destruct (Z.ltb_spec (ndim ref_param) n); [lia|]. split; [done|].
  apply slice_from_length; [done|].
  unfold ndim, broadcastable, shape, Py.len in *.
  rewrite !length_fmap in *. exact Hle.
Qed.

(** The default rule applied to the parameters themselves refuses a
    reference parameter with fewer than [ndim_supp] dimensions. *)
Lemma default_shape_from_dist_params_short (n : Z)
    (dist_params : list TensorVariable) (idx : Z) (ref_param : TensorVariable) :
  0 < n -> Py.getitem dist_params idx = Ok ref_param -> ndim ref_param < n ->
  default_shape_from_params n dist_params idx None
    = Raise (ValueError
        "Reference parameter does not match the expected dimensions").
Proof.
  intros Hn Hget Hlt. unfold default_shape_from_params.
  destruct (Z.leb_spec n 0); [lia|]. rewrite Hget. simpl.
  by destruct (Z.ltb_spec (ndim ref_param) n); [|lia].
Qed.

(** With supplied shapes and [ndim_supp = 1] the rule gives the last
    dimension of the reference shape, which is its trailing slice. *)
Lemma default_shape_from_param_shapes_rank1
    (dist_params : list TensorVariable) (idx : Z)
    (param_shapes : list (list ScalarVariable)) (ref : list ScalarVariable) :
  Py.getitem param_shapes idx = Ok ref -> ref <> [] ->
  default_shape_from_params 1 dist_params idx (Some param_shapes)
    = Ok (Py.slice_from ref (- 1)).
Proof.
  intros Hget Hne. unfold default_shape_from_params.
  change (1 <=? 0) with false. cbv iota. rewrite Hget. cbn [bind].
  pose proof (len_pos ref Hne) as Hpos.
  destruct (getitem_neg ref 1) as (x & Hx & Hgx); [lia | lia |].
  rewrite Hgx. cbn [bind]. f_equal.
  unfold Py.slice_from, Py.bound.
  destruct (Z.ltb_spec (- 1) 0); [|lia].
  unfold Py.len in *.
  replace (Z.to_nat (Z.max 0 (Z.of_nat (length ref) + - 1)))
    with (length ref - Z.to_nat 1)%nat by lia.
  rewrite (drop_S ref x _ Hx).
  replace (S (length ref - Z.to_nat 1)) with (length ref) by lia.
  by rewrite drop_all.
Qed.

(** With supplied shapes the rule gives one entry, the one at position
    [-ndim_supp] of the reference shape. *)
Lemma default_shape_from_param_shapes_single (n : Z)
    (dist_params : list TensorVariable) (idx : Z)
    (param_shapes : list (list ScalarVariable)) (ref : list ScalarVariable) :
  0 < n -> Py.getitem param_shapes idx = Ok ref -> n <= Py.len ref ->
  exists x, ref !! (length ref - Z.to_nat n)%nat = Some x
            /\ default_shape_from_params n dist_params idx (Some param_shapes)
               = Ok [x].
Proof.
  intros Hn Hget Hle. unfold default_shape_from_params.
  destruct (Z.leb_spec n 0); [lia|]. rewrite Hget. cbn [bind].
  destruct (getitem_neg ref n Hn Hle) as (x & Hx & Hgx).
  exists x. by rewrite Hgx.
Qed.

(** With supplied shapes, a reference shape shorter than [ndim_supp] is
    indexed out of range. *)
Lemma default_shape_from_param_shapes_short (n : Z)
    (dist_params : list TensorVariable) (idx : Z)
    (param_shapes : list (list ScalarVariable)) (ref : list ScalarVariable) :
  0 < n -> Py.getitem param_shapes idx = Ok ref -> Py.len ref < n ->
  default_shape_from_params n dist_params idx (Some param_shapes)
  = Raise (IndexError "index out of range").
Proof.
  intros Hn Hget Hlt. unfold default_shape_from_params.
  destruct (Z.leb_spec n 0); [lia|]. rewrite Hget. cbn [bind].
  by rewrite (getitem_short ref n Hlt).
Qed.

(** [_infer_shape] hands the broadcast shapes to the support-shape rule,
    so the rule never looks at the parameters themselves. *)
Lemma shape_from_params_in_infer_shape (self : RandomVariable)
    (dist_params dist_params' : list TensorVariable)
    (param_shapes : list (list ScalarVariable)) :
  _shape_from_params self dist_params (Some param_shapes)
    = _shape_from_params self dist_params' (Some param_shapes).
Proof.
  unfold _shape_from_params, default_shape_from_params.
  by destruct (ndim_supp self <=? 0).
Qed.

(** C1: for an operation with [ndim_supp = 0] and a non-empty size, the
    inferred shape is the size itself, whatever the parameters and the
    supplied parameter shapes are; this holds for [_infer_shape] and for
    [infer_shape] on a node. *)
Theorem infer_shape_scalar_support_is_size (self : RandomVariable)
    (size : list ScalarVariable) (dist_params : list TensorVariable) :
  ndim_supp self = 0 -> size <> [] ->
  (forall param_shapes,
      _infer_shape self size dist_params param_shapes = Ok size)
  /\ (forall node param_shapes,
        in_size node = size ->
        infer_shape self node param_shapes = Ok (None, size)).
Proof.
  intros Hsupp Hsize.
  assert (Hinf : forall dp ps, _infer_shape self size dp ps = Ok size).
  { intros dp ps. unfold _infer_shape, get_vector_length. rewrite Hsupp.
    pose proof (len_pos size Hsize).
    by destruct (Z.ltb_spec 0 (Py.len size)); [|lia]. }
  split; [by intros; apply Hinf|].
  intros node ps Hnode. unfold infer_shape. rewrite Hnode, Hinf. done.
Qed.

End ShapeFacts.

(** The examples of the default rule with one parameter of shape [(5,)] and
    [ndim_supp = 1]. *)
Example infer_shape_vector_5 :
  @_infer_shape Reference.engine Inputs.vector_rv []
     [Inputs.tensor "alpha" [5]] None = Ok [Constant 5]
  /\ @_infer_shape Reference.engine Inputs.vector_rv [Constant 2]
     [Inputs.tensor "alpha" [5]] None = Ok [Constant 2; Constant 5].
Proof. split; reflexivity. Qed.

Lemma infer_shape_scalar_support_is_size_witness :
  ndim_supp Inputs.normal_rv = 0
  /\ [Constant 3; Constant 4] <> []
  /\ @_infer_shape Reference.engine Inputs.normal_rv [Constant 3; Constant 4]
       [Inputs.tensor "mu" [3]; Inputs.tensor "sigma" [5; 7]] None
     = Ok [Constant 3; Constant 4].
Proof.
  split; [reflexivity | split; [discriminate |]].
  apply (infer_shape_scalar_support_is_size (engine := Reference.engine)
           Inputs.normal_rv [Constant 3; Constant 4]
           [Inputs.tensor "mu" [3]; Inputs.tensor "sigma" [5; 7]]);
    [reflexivity | discriminate].
Defined.

(** C2: the default rule on a reference parameter of shape [(3, 4)] with
    [ndim_supp = 2].  Computed from the parameter it gives the trailing two
    dimensions [(3, 4)]; computed from the supplied shape of the same
    parameter it gives the single entry [(3,)], and so does [_infer_shape],
    which always supplies shapes. *)
Theorem default_shape_from_params_rank2 :
  let p := Inputs.tensor "V" [3; 4] in
  default_shape_from_params 2 [p] 0 None = Ok [Constant 3; Constant 4]
  /\ default_shape_from_params 2 [p] 0 (Some [shape p]) = Ok [Constant 3]
  /\ @_infer_shape Reference.engine Inputs.matrix_rv [] [p] None
     = Ok [Constant 3]
  /\ @infer_shape Reference.engine Inputs.matrix_rv
       (mkApply Inputs.matrix_rv SharedDefaultRng [] 11 [p]
                RandomGeneratorType (mkTensorType "float64" [false]))
       [shape p]
     = Ok (None, [Constant 3]).
Proof. repeat split; reflexivity. Qed.

(** C6: a reference parameter with no dimension and [ndim_supp = 1].  The
    rule computed from the parameters raises the shape error; computed from
    supplied shapes it raises an index error for the parameter's own shape
    [()] and returns [(4,)] for the broadcast shape [(4,)], and node
    construction, which always supplies the broadcast shapes, builds a
    node. *)
Theorem default_shape_from_params_short_reference :
  let n := Inputs.tensor "n" [] in
  let p := Inputs.tensor "p" [4; 3] in
  ndim n < 1
  /\ default_shape_from_params 1 [n; p] 0 None
     = Raise (ValueError
         "Reference parameter does not match the expected dimensions")
  /\ default_shape_from_params 1 [n; p] 0 (Some [shape n; shape p])
     = Raise (IndexError "index out of range")
  /\ default_shape_from_params 1 [n; p] 0
       (Some [[Constant 4]; [Constant 4; Constant 3]])
     = Ok [Constant 4]
  /\ @_infer_shape Reference.engine Inputs.count_rv [] [n; p] None
     = Ok [Constant 4; Constant 4]
  /\ is_ok (@make_node Reference.engine Inputs.count_rv None SizeNone
              (Some (DtStr "int64")) [n; p]) = true.
Proof. repeat split; reflexivity. Qed.

(** ** Node construction *)

Section NodeFacts.

Context {engine : GraphEngine}.

(** A node that is built has passed every step of [make_node]. *)
Lemma make_node_inv (self : RandomVariable) (rng : option RngVariable)
    (size : SizeArg) (dtype_ : option DtypeArg)
    (dist_params : list TensorVariable) (node : Apply) :
  make_node self rng size dtype_ dist_params = Ok node ->
  exists bcast dt idx,
    rng_accepted rng
    /\ compute_bcast self dist_params (normalize_size_param size) = Ok bcast
    /\ resolve_dtype self dtype_ = Ok (dt, idx)
    /\ out_var node = mkTensorType dt bcast
    /\ in_dtype_idx node = idx
    /\ in_size node = normalize_size_param size
    /\ in_dist_params node = dist_params
    /\ op node = self.
Proof.
  unfold make_node. intros H.
  destruct rng as [r|]; simpl in H.
  - destruct (is_RandomType (rng_type r)) eqn:Hr; simpl in H; [|discriminate].
    destruct (compute_bcast self dist_params (normalize_size_param size))
      as [bcast|] eqn:Hb; simpl in H; [|discriminate].
    destruct (resolve_dtype self dtype_) as [[dt idx]|] eqn:Hd; simpl in H;
      [|discriminate].
    injection H as <-. exists bcast, dt, idx. by repeat split.
  - destruct (compute_bcast self dist_params (normalize_size_param size))
      as [bcast|] eqn:Hb; simpl in H; [|discriminate].
    destruct (resolve_dtype self dtype_) as [[dt idx]|] eqn:Hd; simpl in H;
      [|discriminate].
    injection H as <-. exists bcast, dt, idx. by repeat split.
Qed.

(** Once the generator handle and the shape are accepted, [make_node]
    succeeds or fails as the dtype block does. *)
Lemma make_node_dtype (self : RandomVariable) (rng : option RngVariable)
    (size : SizeArg) (dtype_ : option DtypeArg)
    (dist_params : list TensorVariable) (bcast : list bool) :
  rng_accepted rng ->
  compute_bcast self dist_params (normalize_size_param size) = Ok bcast ->
  match resolve_dtype self dtype_ with
  | Ok (dt, idx) =>
      exists node,
        make_node self rng size dtype_ dist_params = Ok node
        /\ out_var node = mkTensorType dt bcast
        /\ in_dtype_idx node = idx
  | Raise e => make_node self rng size dtype_ dist_params = Raise e
  end.
Proof.
  intros Hrng Hb. unfold make_node.
  destruct rng as [r|]; simpl in *.
  - rewrite Hrng. simpl. rewrite Hb. simpl.
    destruct (resolve_dtype self dtype_) as [[dt idx]|]; simpl; eauto.
  - rewrite Hb. simpl.
    destruct (resolve_dtype self dtype_) as [[dt idx]|]; simpl; eauto.
Qed.

(** C3: in every node that [make_node] builds, the flags of the sample's
    type are those of the folded shape: entry [i] is flagged broadcastable
    exactly when entry [i] of the constant-folded inferred shape is the
    literal [1], and an entry that is not a literal is flagged
    non-broadcastable. *)
Theorem make_node_broadcastable_iff_folded_one (self : RandomVariable)
    (rng : option RngVariable) (size : SizeArg) (dtype_ : option DtypeArg)
    (dist_params : list TensorVariable) (node : Apply) :
  make_node self rng size dtype_ dist_params = Ok node ->
  exists shape,
    _infer_shape self (normalize_size_param size) dist_params None = Ok shape
    /\ length (tt_broadcastable (out_var node))
       = length (optimize_graph shape)
    /\ (forall i : nat,
          tt_broadcastable (out_var node) !! i = Some true
          <-> optimize_graph shape !! i = Some (Constant 1))
    /\ (forall (i : nat) (s : ScalarVariable),
          optimize_graph shape !! i = Some s ->
          (forall d, s <> Constant d) ->
          tt_broadcastable (out_var node) !! i = Some false).
Proof.
  intros H. apply make_node_inv in H
    as (bcast & dt & idx & _ & Hb & _ & Hout & _).
  unfold compute_bcast in Hb.
  destruct (_infer_shape self (normalize_size_param size) dist_params None)
    as [shape|] eqn:Hs; simpl in Hb; [|discriminate].
  injection Hb as <-. exists shape. rewrite Hout. simpl.
  split; [done|]. split; [by rewrite length_map|]. split.
  - intros i. change (map data_eq_1 (optimize_graph shape))
      with (data_eq_1 <$> optimize_graph shape).
    rewrite list_lookup_fmap.
    destruct (optimize_graph shape !! i) as [s|]; simpl; [|done].
    destruct s as [d| |]; simpl; split; intros Heq; try discriminate.
    + injection Heq as Heq. apply Z.eqb_eq in Heq. by subst.
    + by injection Heq as ->.
  - intros i s Hi Hs'. change (map data_eq_1 (optimize_graph shape))
      with (data_eq_1 <$> optimize_graph shape).
    rewrite list_lookup_fmap, Hi. simpl.
    destruct s as [d| |]; simpl; [by destruct (Hs' d) | done | done].
Qed.

End NodeFacts.

Lemma make_node_broadcastable_iff_folded_one_witness :
  exists node,
    @make_node Reference.engine Inputs.normal_rv None SizeNone None
      [Inputs.tensor "mu" [3; 1]; Inputs.tensor "sigma" [1; 1]] = Ok node
    /\ tt_broadcastable (out_var node) !! 0%nat = Some false
    /\ tt_broadcastable (out_var node) !! 1%nat = Some true.
Proof.
  eexists. split; [reflexivity|].
  destruct (make_node_broadcastable_iff_folded_one (engine := Reference.engine)
              Inputs.normal_rv None SizeNone None
              [Inputs.tensor "mu" [3; 1]; Inputs.tensor "sigma" [1; 1]] _
              eq_refl) as (shape & Hs & _ & Hiff & Hsym).
  vm_compute in Hs. injection Hs as <-.
  split; [reflexivity | apply Hiff; reflexivity].
Defined.

Section DtypeFacts.

Context {engine : GraphEngine}.

Lemma int64_constant_in_range (v : Z) :
  - 2 ^ 63 <= v < 2 ^ 63 -> int64_constant v = Ok v.
Proof.
  intros Hv. unfold int64_constant.
  destruct (Z.leb_spec (- 2 ^ 63) v); [|lia].
  by destruct (Z.ltb_spec v (2 ^ 63)); [|lia].
Qed.

Lemma int64_constant_Ok (v w : Z) :
  int64_constant v = Ok w -> w = v /\ - 2 ^ 63 <= v < 2 ^ 63.
Proof.
  unfold int64_constant.
  destruct (Z.leb_spec (- 2 ^ 63) v); [|discriminate].
  destruct (Z.ltb_spec v (2 ^ 63)); [|discriminate].
  simpl. intros Hw. injection Hw as <-. lia.
Qed.

Lemma int64_constant_out_of_range (v : Z) :
  v < - 2 ^ 63 \/ 2 ^ 63 <= v -> is_ok (int64_constant v) = false.
Proof.
  intros Hv. unfold int64_constant.
  destruct (Z.leb_spec (- 2 ^ 63) v); [|done].
  by destruct (Z.ltb_spec v (2 ^ 63)); [lia|].
Qed.

(** The position of a name in a catalogue that fits a Python list is an
    int64. *)
Lemma index_int64 (l : list string) (x : string) (i : Z) :
  Py.len l <= 2 ^ 63 -> Py.index l x = Ok i -> int64_constant i = Ok i.
Proof.
  intros Hlen Hi. apply index_from_Ok in Hi as [Hr _].
  apply int64_constant_in_range. lia.
Qed.

Lemma py_or_declared (self : RandomVariable) (caller : option DtypeArg) :
  truthy (dtype self) = true -> py_or (dtype self) caller = dtype self.
Proof. intros H. unfold py_or. by rewrite H. Qed.

Lemma py_or_caller (self : RandomVariable) (caller : option DtypeArg) :
  truthy (dtype self) = false -> py_or (dtype self) caller = caller.
Proof. intros H. unfold py_or. by rewrite H. Qed.

Lemma truthy_name (s : string) : s <> "" -> truthy (Some (DtStr s)) = true.
Proof. intros H. simpl. by destruct (String.eqb_spec s ""). Qed.

(** A declared dtype that is set hides the caller's. *)
Lemma resolve_dtype_declared (self : RandomVariable)
    (caller caller' : option DtypeArg) :
  truthy (dtype self) = true ->
  resolve_dtype self caller = resolve_dtype self caller'.
Proof. intros H. unfold resolve_dtype, py_or. by rewrite H. Qed.

Lemma resolve_dtype_floatX (self : RandomVariable) (caller : option DtypeArg) :
  py_or (dtype self) caller = Some (DtStr "floatX") ->
  In floatX all_dtypes -> Py.len all_dtypes <= 2 ^ 63 ->
  exists idx, resolve_dtype self caller = Ok (floatX, idx)
              /\ Py.index all_dtypes floatX = Ok idx.
Proof.
  intros Hor Hin Hlen. unfold resolve_dtype. rewrite Hor. simpl.
  destruct (getitem_index all_dtypes floatX Hin) as (i & Hi & _).
  exists i. rewrite Hi. simpl. by rewrite (index_int64 _ _ _ Hlen Hi).
Qed.

Lemma resolve_dtype_name (self : RandomVariable) (caller : option DtypeArg)
    (s : string) :
  py_or (dtype self) caller = Some (DtStr s) ->
  s <> "floatX" -> In s all_dtypes -> Py.len all_dtypes <= 2 ^ 63 ->
  exists idx, resolve_dtype self caller = Ok (s, idx)
              /\ Py.index all_dtypes s = Ok idx.
Proof.
  intros Hor Hne Hin Hlen. unfold resolve_dtype. rewrite Hor.
  destruct (String.eqb_spec s "floatX"); [done|].
  pose proof Hin as Hc. apply contains_In in Hc. rewrite Hc. simpl.
  destruct (getitem_index all_dtypes s Hin) as (i & Hi & _).
  exists i. rewrite Hi. simpl. by rewrite (index_int64 _ _ _ Hlen Hi).
Qed.

Lemma resolve_dtype_none (self : RandomVariable) (caller : option DtypeArg) :
  py_or (dtype self) caller = None ->
  resolve_dtype self caller = Raise (TypeError "dtype is unspecified").
Proof. intros H. unfold resolve_dtype. by rewrite H. Qed.

Lemma resolve_dtype_unknown (self : RandomVariable)
    (caller : option DtypeArg) (s : string) :
  py_or (dtype self) caller = Some (DtStr s) ->
  s <> "floatX" -> ~ In s all_dtypes ->
  resolve_dtype self caller = Raise (TypeError "dtype is unspecified").
Proof.
  intros Hor Hne Hnin. unfold resolve_dtype. rewrite Hor.
  destruct (String.eqb_spec s "floatX"); [done|].
  destruct (Py.contains all_dtypes s) eqn:Hc; [|done].
  apply contains_In in Hc. done.
Qed.

Lemma resolve_dtype_index (self : RandomVariable) (caller : option DtypeArg)
    (i : Z) :
  py_or (dtype self) caller = Some (DtIdx i) ->
  resolve_dtype self caller
  = do dtype_idx <- int64_constant i;
    do s <- Py.getitem all_dtypes dtype_idx;
    Ok (s, dtype_idx).
Proof. intros H. unfold resolve_dtype. by rewrite H. Qed.

(** A name of the catalogue and its index resolve alike. *)
Lemma resolve_dtype_name_index (self : RandomVariable) (d : string) (i : Z) :
  In d all_dtypes -> d <> "floatX" -> Py.index all_dtypes d = Ok i ->
  resolve_dtype self (Some (DtStr d)) = resolve_dtype self (Some (DtIdx i)).
Proof.
  intros Hin Hne Hi. pose proof (index_getitem _ _ _ Hi) as Hget.
  destruct (truthy (dtype self)) eqn:Ht;
    [by apply resolve_dtype_declared|].
  rewrite (resolve_dtype_index self (Some (DtIdx i)) i)
    by (by apply py_or_caller).
  unfold resolve_dtype. rewrite (py_or_caller self _ Ht).
  destruct (String.eqb_spec d "floatX"); [done|].
  pose proof Hin as Hc. apply contains_In in Hc. rewrite Hc. simpl.
  rewrite Hi. simpl.
  destruct (int64_constant i) as [j|] eqn:Hj; simpl; [|done].
  apply int64_constant_Ok in Hj as [-> _]. by rewrite Hget.
Qed.

(** What [make_node] returns for a dtype block that succeeds. *)
Lemma make_node_resolved (self : RandomVariable) (rng : option RngVariable)
    (size : SizeArg) (caller : option DtypeArg)
    (dist_params : list TensorVariable) (bcast : list bool)
    (dt : string) (idx : Z) :
  rng_accepted rng ->
  compute_bcast self dist_params (normalize_size_param size) = Ok bcast ->
  resolve_dtype self caller = Ok (dt, idx) ->
  exists node,
    make_node self rng size caller dist_params = Ok node
    /\ out_var node = mkTensorType dt bcast
    /\ in_dtype_idx node = idx.
Proof.
  intros Hrng Hb Hres.
  pose proof (make_node_dtype self rng size caller dist_params bcast Hrng Hb)
    as Hmk.
  by rewrite Hres in Hmk.
Qed.

Lemma make_node_unresolved (self : RandomVariable) (rng : option RngVariable)
    (size : SizeArg) (caller : option DtypeArg)
    (dist_params : list TensorVariable) (bcast : list bool) (e : Exception) :
  rng_accepted rng ->
  compute_bcast self dist_params (normalize_size_param size) = Ok bcast ->
  resolve_dtype self caller = Raise e ->
  make_node self rng size caller dist_params = Raise e.
Proof.
  intros Hrng Hb Hres.
  pose proof (make_node_dtype self rng size caller dist_params bcast Hrng Hb)
    as Hmk.
  by rewrite Hres in Hmk.
Qed.

(** C4: the dtype of a node, once the generator and the shape are accepted,
    for a catalogue that fits a Python list.  A declared dtype that is set
    is the node's dtype whatever the caller supplies: a declared catalogue
    name gives that name and its index, a declared ["floatX"] gives
    [config.floatX], a declared index gives the catalogue entry at that
    index.  Without a declared dtype the caller's name, or [config.floatX]
    for ["floatX"], is the node's dtype.  With neither, and with a resolved
    name outside [all_dtypes], construction raises the dtype error. *)
Theorem make_node_dtype_resolution (self : RandomVariable)
    (rng : option RngVariable) (size : SizeArg)
    (dist_params : list TensorVariable) (bcast : list bool) :
  rng_accepted rng ->
  compute_bcast self dist_params (normalize_size_param size) = Ok bcast ->
  Py.len all_dtypes <= 2 ^ 63 ->
  (forall s caller,
      dtype self = Some (DtStr s) -> s <> "" -> s <> "floatX" ->
      In s all_dtypes ->
      exists node,
        make_node self rng size caller dist_params = Ok node
        /\ out_var node = mkTensorType s bcast
        /\ Py.index all_dtypes s = Ok (in_dtype_idx node))
  /\ (forall caller,
        dtype self = Some (DtStr "floatX") -> In floatX all_dtypes ->
        exists node,
          make_node self rng size caller dist_params = Ok node
          /\ out_var node = mkTensorType floatX bcast
          /\ Py.index all_dtypes floatX = Ok (in_dtype_idx node))
  /\ (forall i d caller,
        dtype self = Some (DtIdx i) -> i <> 0 ->
        - 2 ^ 63 <= i < 2 ^ 63 -> Py.getitem all_dtypes i = Ok d ->
        exists node,
          make_node self rng size caller dist_params = Ok node
          /\ out_var node = mkTensorType d bcast
          /\ in_dtype_idx node = i)
  /\ (forall s,
        truthy (dtype self) = false -> s <> "floatX" -> In s all_dtypes ->
        exists node,
          make_node self rng size (Some (DtStr s)) dist_params = Ok node
          /\ out_var node = mkTensorType s bcast
          /\ Py.index all_dtypes s = Ok (in_dtype_idx node))
  /\ (truthy (dtype self) = false -> In floatX all_dtypes ->
      exists node,
        make_node self rng size (Some (DtStr "floatX")) dist_params = Ok node
        /\ out_var node = mkTensorType floatX bcast
        /\ Py.index all_dtypes floatX = Ok (in_dtype_idx node))
  /\ (truthy (dtype self) = false ->
      make_node self rng size None dist_params
      = Raise (TypeError "dtype is unspecified"))
  /\ (forall s caller,
        dtype self = Some (DtStr s) -> s <> "" -> s <> "floatX" ->
        ~ In s all_dtypes ->
        make_node self rng size caller dist_params
        = Raise (TypeError "dtype is unspecified"))
  /\ (forall s,
        truthy (dtype self) = false -> s <> "floatX" -> ~ In s all_dtypes ->
        make_node self rng size (Some (DtStr s)) dist_params
        = Raise (TypeError "dtype is unspecified")).
Proof.
  intros Hrng Hb Hlen.
  assert (Hdecl : forall s caller, dtype self = Some (DtStr s) -> s <> "" ->
            py_or (dtype self) caller = Some (DtStr s)).
  { intros s caller Hd Hs. rewrite py_or_declared; [done|].
    rewrite Hd. by apply truthy_name. }
  assert (Hbuilt : forall caller dt i,
            resolve_dtype self caller = Ok (dt, i) ->
            Py.index all_dtypes dt = Ok i ->
            exists node,
              make_node self rng size caller dist_params = Ok node
              /\ out_var node = mkTensorType dt bcast
              /\ Py.index all_dtypes dt = Ok (in_dtype_idx node)).
  { intros caller dt i Hres Hi.
    destruct (make_node_resolved self rng size caller dist_params bcast dt i
                Hrng Hb Hres) as (node & Hn & Hout & Hidx).
    exists node. by rewrite Hidx. }
  repeat split.
  - intros s caller Hd Hs Hne Hin.
    destruct (resolve_dtype_name self caller s (Hdecl s caller Hd Hs) Hne Hin
                Hlen) as (i & Hres & Hi).
    by apply (Hbuilt caller s i).
  - intros caller Hd Hin.
    destruct (resolve_dtype_floatX self caller
                (Hdecl "floatX" caller Hd ltac:(discriminate)) Hin Hlen)
      as (i & Hres & Hi).
    by apply (Hbuilt caller floatX i).
  - intros i d caller Hd Hi Hr Hget.
    apply (make_node_resolved self rng size caller dist_params bcast d i
             Hrng Hb).
    rewrite (resolve_dtype_index self caller i).
    + rewrite (int64_constant_in_range i Hr). simpl. by rewrite Hget.
    + rewrite py_or_declared; [done|]. rewrite Hd. simpl.
      by destruct (Z.eqb_spec i 0).
  - intros s Ht Hne Hin.
    destruct (resolve_dtype_name self (Some (DtStr s)) s
                (py_or_caller self _ Ht) Hne Hin Hlen) as (i & Hres & Hi).
    by apply (Hbuilt (Some (DtStr s)) s i).
  - intros Ht Hin.
    destruct (resolve_dtype_floatX self (Some (DtStr "floatX"))
                (py_or_caller self _ Ht) Hin Hlen) as (i & Hres & Hi).
    by apply (Hbuilt (Some (DtStr "floatX")) floatX i).
  - intros Ht.
    apply (make_node_unresolved self rng size None dist_params bcast _ Hrng Hb).
    apply resolve_dtype_none. by apply py_or_caller.
  - intros s caller Hd Hs Hne Hnin.
    apply (make_node_unresolved self rng size caller dist_params bcast _
             Hrng Hb).
    by apply (resolve_dtype_unknown self caller s (Hdecl s caller Hd Hs)).
  - intros s Ht Hne Hnin.
    apply (make_node_unresolved self rng size _ dist_params bcast _ Hrng Hb).
    by apply (resolve_dtype_unknown self _ s (py_or_caller self _ Ht)).
Qed.

(** C8: a dtype of the catalogue given by name and given by its index
    resolve to the same catalogue entry: [all_dtypes.index] and the
    subscript of [all_dtypes] undo one another, [make_node] returns the same
    result for the two forms, and for an operation that declares no dtype,
    once the generator and the shape are accepted, both forms build one and
    the same node, which carries that name and that index.  The catalogue
    holds dtype names, not the sentinel ["floatX"], and fits a Python
    list. *)
Theorem make_node_dtype_name_index (d : string) :
  ~ In "floatX" all_dtypes -> Py.len all_dtypes <= 2 ^ 63 ->
  In d all_dtypes ->
  exists i,
    Py.index all_dtypes d = Ok i
    /\ Py.getitem all_dtypes i = Ok d
    /\ (forall self rng size dist_params,
          make_node self rng size (Some (DtStr d)) dist_params
          = make_node self rng size (Some (DtIdx i)) dist_params)
    /\ (forall self rng size dist_params bcast,
          truthy (dtype self) = false ->
          rng_accepted rng ->
          compute_bcast self dist_params (normalize_size_param size)
          = Ok bcast ->
          exists node,
            make_node self rng size (Some (DtStr d)) dist_params = Ok node
            /\ make_node self rng size (Some (DtIdx i)) dist_params = Ok node
            /\ out_var node = mkTensorType d bcast
            /\ in_dtype_idx node = i).
Proof.
  intros HfloatX Hlen Hin.
  assert (Hne : d <> "floatX") by (by intros ->).
  destruct (getitem_index all_dtypes d Hin) as (i & Hi & Hget).
  exists i. split; [done|]. split; [done|].
  assert (Heq : forall self rng size dist_params,
            make_node self rng size (Some (DtStr d)) dist_params
            = make_node self rng size (Some (DtIdx i)) dist_params).
  { intros self rng size dist_params. unfold make_node.
    by rewrite (resolve_dtype_name_index self d i Hin Hne Hi). }
  split; [exact Heq|].
  intros self rng size dist_params bcast Ht Hrng Hb.
  destruct (resolve_dtype_name self (Some (DtStr d)) d
              (py_or_caller self _ Ht) Hne Hin Hlen) as (j & Hres & Hj).
  rewrite Hi in Hj. injection Hj as <-.
  destruct (make_node_resolved self rng size (Some (DtStr d)) dist_params
              bcast d i Hrng Hb Hres) as (node & Hn & Hout & Hidx).
  exists node. split; [exact Hn|]. split; [by rewrite <- Heq|]. done.
Qed.

End DtypeFacts.

Lemma make_node_dtype_resolution_witness :
  let mu := [Inputs.tensor "mu" [3]; Inputs.tensor "sigma" [3]] in
  let alpha := [Inputs.tensor "alpha" [5]] in
  (exists node,
      @make_node Reference.engine Inputs.normal_rv None SizeNone
         (Some (DtStr "int8")) mu = Ok node
      /\ out_var node = mkTensorType "float64" [false])
  /\ (exists node,
        @make_node Reference.engine Inputs.vector_rv None SizeNone
           (Some (DtStr "int32")) alpha = Ok node
        /\ out_var node = mkTensorType "int32" [false])
  /\ @make_node Reference.engine Inputs.vector_rv None SizeNone None alpha
     = Raise (TypeError "dtype is unspecified")
  /\ @make_node Reference.engine Inputs.vector_rv None SizeNone
       (Some (DtStr "float128")) alpha
     = Raise (TypeError "dtype is unspecified").
Proof.
  intros mu alpha.
  assert (Hlen : Py.len (@all_dtypes Reference.engine) <= 2 ^ 63)
    by (vm_compute; discriminate).
  destruct (make_node_dtype_resolution (engine := Reference.engine)
              Inputs.normal_rv None SizeNone mu [false] I eq_refl Hlen)
    as (_ & HfloatX & _).
  destruct (make_node_dtype_resolution (engine := Reference.engine)
              Inputs.vector_rv None SizeNone alpha [false] I eq_refl Hlen)
    as (_ & _ & _ & Hcaller & _ & Hnone & _ & Hunknown).
  split.
  - destruct (HfloatX (Some (DtStr "int8")) eq_refl) as (node & Hn & Hout & _).
    + vm_compute. tauto.
    + exists node. split; [exact Hn | exact Hout].
  - split.
    + destruct (Hcaller "int32" eq_refl) as (node & Hn & Hout & _).
      * discriminate.
      * vm_compute. tauto.
      * exists node. split; [exact Hn | exact Hout].
    + split; [apply Hnone; reflexivity|].
      apply (Hunknown "float128"); [reflexivity | discriminate |].
      vm_compute. intuition discriminate.
Defined.

Lemma make_node_dtype_name_index_witness :
  @Py.index (@all_dtypes Reference.engine) "int32" = Ok 3
  /\ exists node,
      @make_node Reference.engine Inputs.vector_rv None SizeNone
        (Some (DtStr "int32")) [Inputs.tensor "alpha" [5]] = Ok node
      /\ @make_node Reference.engine Inputs.vector_rv None SizeNone
           (Some (DtIdx 3)) [Inputs.tensor "alpha" [5]] = Ok node
      /\ out_var node = mkTensorType "int32" [false]
      /\ in_dtype_idx node = 3.
Proof.
  destruct (make_node_dtype_name_index (engine := Reference.engine) "int32")
    as (i & Hi & _ & _ & Hnode).
  - vm_compute. intuition discriminate.
  - vm_compute. discriminate.
  - vm_compute. tauto.
  - split; [reflexivity|].
    assert (i = 3) as -> by (vm_compute in Hi; congruence).
    apply (Hnode Inputs.vector_rv None SizeNone [Inputs.tensor "alpha" [5]]
             [false] eq_refl I eq_refl).
Defined.

(** ** Execution *)

Section ExecutorFacts.

Context {rt : Runtime}.

Lemma np_size_zero (size : list Z) :
  (if Py.len size =? 0 then None else Some size) = kernel_size size.
Proof. destruct size; [done|]. unfold Py.len. simpl. done. Qed.

(** [perform] under the copy policy: the draw is made on a new object. *)
Lemma perform_copy (self : RandomVariable) (node : Apply) (rng : loc)
    (size : list Z) (dtype_ : Z) (args : list payload) (m : Memory)
    (st : rng_state) :
  inplace self = false -> generators m !! rng = Some st ->
  let rng' := fresh (dom (generators m)) in
  let out := numpy_method (name self) st args (kernel_size size) in
  perform self node rng size dtype_ args m
  = Some ((emitted node out.2 (smpl_out m)).1,
          mkMemory (<[rng' := out.1]> (generators m)) (Some rng')
                   (emitted node out.2 (smpl_out m)).2).
Proof.
  intros Hin Hst rng' out. unfold perform. rewrite Hin, np_size_zero.
  unfold copy. rewrite Hst. simpl. unfold rng_fn. simpl.
  rewrite lookup_insert_eq. simpl. fold rng'. fold out. unfold emitted.
  destruct out as [st' [v|e]]; simpl; rewrite insert_insert_eq; [|done].
  by destruct (coerce (out_var node) v).
Qed.

(** [perform] under the in-place policy: the draw is made on the incoming
    object. *)
Lemma perform_inplace (self : RandomVariable) (node : Apply) (rng : loc)
    (size : list Z) (dtype_ : Z) (args : list payload) (m : Memory)
    (st : rng_state) :
  inplace self = true -> generators m !! rng = Some st ->
  let out := numpy_method (name self) st args (kernel_size size) in
  perform self node rng size dtype_ args m
  = Some ((emitted node out.2 (smpl_out m)).1,
          mkMemory (<[rng := out.1]> (generators m)) (Some rng)
                   (emitted node out.2 (smpl_out m)).2).
Proof.
  intros Hin Hst out. unfold perform. rewrite Hin, np_size_zero. simpl.
  unfold rng_fn. simpl. rewrite Hst. simpl. fold out. unfold emitted.
  destruct out as [st' [v|e]]; simpl; [|done].
  by destruct (coerce (out_var node) v).
Qed.

Lemma fresh_generator (m : Memory) (rng : loc) (st : rng_state) :
  generators m !! rng = Some st ->
  fresh (dom (generators m)) <> rng
  /\ generators m !! fresh (dom (generators m)) = None.
Proof.
  intros Hst. pose proof (is_fresh (dom (generators m))) as Hf.
  split.
  - intros Heq. apply Hf. rewrite Heq. apply elem_of_dom. by eexists.
  - by apply not_elem_of_dom.
Qed.

(** C5: under the copy policy [perform] draws on a duplicate.  The incoming
    generator, like every generator of the store, keeps its position; the
    generator put in the first output cell is a new object, advanced by the
    draw; and a second execution on the same incoming generator reports the
    same result and leaves the same sample, the one the kernel returns on
    its first call from that position. *)
Theorem perform_copy_keeps_incoming_state (self : RandomVariable)
    (node : Apply) (rng : loc) (size : list Z) (dtype_ : Z)
    (args : list payload) (m : Memory) (st : rng_state) :
  inplace self = false -> generators m !! rng = Some st ->
  let out := numpy_method (name self) st args (kernel_size size) in
  exists res m1 m2 rng1 rng2,
    perform self node rng size dtype_ args m = Some (res, m1)
    /\ perform self node rng size dtype_ args m1 = Some (res, m2)
    /\ generators m1 !! rng = Some st
    /\ generators m2 !! rng = Some st
    /\ (forall l s, generators m !! l = Some s -> generators m1 !! l = Some s)
    /\ rng_var_out m1 = Some rng1 /\ rng1 <> rng
    /\ generators m !! rng1 = None /\ generators m1 !! rng1 = Some out.1
    /\ rng_var_out m2 = Some rng2 /\ rng2 <> rng
    /\ generators m1 !! rng2 = None /\ generators m2 !! rng2 = Some out.1
    /\ smpl_out m2 = smpl_out m1
    /\ (forall v x, out.2 = Ok v -> coerce (out_var node) v = Ok x ->
          res = Ok tt /\ smpl_out m1 = Some (tt_dtype (out_var node), x)).
Proof.
  intros Hin Hst out.
  pose proof (perform_copy self node rng size dtype_ args m st Hin Hst) as H1.
  cbv zeta in H1. fold out in H1.
  destruct (fresh_generator m rng st Hst) as [Hne1 Hnew1].
  set (rng1 := fresh (dom (generators m))) in *.
  set (m1 := mkMemory (<[rng1 := out.1]> (generators m)) (Some rng1)
                      (emitted node out.2 (smpl_out m)).2) in *.
  assert (Hst1 : generators m1 !! rng = Some st).
  { simpl. by rewrite lookup_insert_ne. }
  pose proof (perform_copy self node rng size dtype_ args m1 st Hin Hst1) as H2.
  cbv zeta in H2. fold out in H2.
  destruct (fresh_generator m1 rng st Hst1) as [Hne2 Hnew2].
  set (rng2 := fresh (dom (generators m1))) in *.
  assert (Hsame : emitted node out.2 (smpl_out m1)
                  = emitted node out.2 (smpl_out m)).
  { simpl. unfold emitted. destruct out.2 as [v|e]; [|done].
    by destruct (coerce (out_var node) v). }
  rewrite Hsame in H2.
  eexists _, m1, _, rng1, rng2.
  split; [exact H1|]. split; [exact H2|]. split; [exact Hst1|].
  split; [simpl; by rewrite lookup_insert_ne|].
  split.
  { intros l s Hl. simpl. rewrite lookup_insert_ne; [done|].
    intros <-. congruence. }
  split; [done|]. split; [done|]. split; [done|].
  split; [simpl; by rewrite lookup_insert_eq|].
  split; [done|]. split; [done|]. split; [done|].
  split; [simpl; by rewrite lookup_insert_eq|].
  split; [done|].
  intros v x Hv Hx. simpl. unfold emitted. by rewrite Hv, Hx.
Qed.

(** C7: [perform] normalises the size before the draw.  The kernel is
    called with no size for an empty size and with the tuple of the
    entries otherwise: the generator of the first output cell is in the
    position the kernel leaves on that argument, and the outcome is the
    kernel's. *)
Theorem perform_normalizes_size (self : RandomVariable)
    (node : Apply) (rng : loc) (size : list Z) (dtype_ : Z)
    (args : list payload) (m : Memory) (st : rng_state) :
  generators m !! rng = Some st ->
  exists size',
    (size = [] -> size' = None)
    /\ (size <> [] -> size' = Some size)
    /\ exists res m' rng',
        perform self node rng size dtype_ args m = Some (res, m')
        /\ rng_var_out m' = Some rng'
        /\ generators m' !! rng'
           = Some (numpy_method (name self) st args size').1
        /\ (res, smpl_out m')
           = emitted node (numpy_method (name self) st args size').2
                     (smpl_out m).
Proof.
  intros Hst. exists (kernel_size size).
  split; [by intros ->|]. split; [by destruct size|].
  destruct (inplace self) eqn:Hin.
  - rewrite (perform_inplace self node rng size dtype_ args m st Hin Hst).
    eexists _, _, rng. split; [done|]. simpl.
    split; [done|]. split; [by rewrite lookup_insert_eq|].
    by destruct (emitted _ _ _).
  - rewrite (perform_copy self node rng size dtype_ args m st Hin Hst).
    eexists _, _, _. split; [done|]. simpl.
    split; [done|]. split; [by rewrite lookup_insert_eq|].
    by destruct (emitted _ _ _).
Qed.

End ExecutorFacts.

Lemma perform_copy_keeps_incoming_state_witness :
  inplace Inputs.normal_rv = false
  /\ @generators Reference.counter_runtime ExecutionInputs.counter_memory
       !! 1%positive = Some 10
  /\ exists res m1 m2,
      @perform Reference.counter_runtime Inputs.normal_rv ExecutionInputs.node
         1%positive [] 11 [0; 1] ExecutionInputs.counter_memory = Some (res, m1)
      /\ @perform Reference.counter_runtime Inputs.normal_rv ExecutionInputs.node
           1%positive [] 11 [0; 1] m1 = Some (res, m2)
      /\ @generators Reference.counter_runtime m1 !! 1%positive = Some 10
      /\ @generators Reference.counter_runtime m2 !! 1%positive = Some 10
      /\ @smpl_out Reference.counter_runtime m1 = Some ("float64", 10)
      /\ @smpl_out Reference.counter_runtime m2 = Some ("float64", 10).
Proof.
  split; [reflexivity|]. split; [reflexivity|].
  destruct (perform_copy_keeps_incoming_state (rt := Reference.counter_runtime)
              Inputs.normal_rv ExecutionInputs.node 1%positive [] 11 [0; 1]
              ExecutionInputs.counter_memory 10 eq_refl eq_refl)
    as (res & m1 & m2 & rng1 & rng2 & H1 & H2 & Hs1 & Hs2 & _ & _ & _ & _ & _
        & _ & _ & _ & _ & Hsame & Hfirst).
  exists res, m1, m2. repeat split; try assumption.
  - apply (Hfirst (Some "float64", 10) 10); reflexivity.
  - rewrite Hsame. apply (Hfirst (Some "float64", 10) 10); reflexivity.
Defined.

Lemma perform_normalizes_size_witness :
  (exists res m' rng',
      @perform Reference.recording_runtime Inputs.normal_rv ExecutionInputs.node
         1%positive [] 11 [0; 1] ExecutionInputs.recording_memory
      = Some (res, m')
      /\ @rng_var_out Reference.recording_runtime m' = Some rng'
      /\ @generators Reference.recording_runtime m' !! rng' = Some [None])
  /\ (exists res m' rng',
        @perform Reference.recording_runtime Inputs.normal_rv ExecutionInputs.node
           1%positive [2; 3] 11 [0; 1] ExecutionInputs.recording_memory
        = Some (res, m')
        /\ @rng_var_out Reference.recording_runtime m' = Some rng'
        /\ @generators Reference.recording_runtime m' !! rng'
           = Some [Some [2; 3]]).
Proof.
  split.
  - destruct (perform_normalizes_size (rt := Reference.recording_runtime)
                Inputs.normal_rv ExecutionInputs.node 1%positive [] 11 [0; 1]
                ExecutionInputs.recording_memory [] eq_refl)
      as (size' & Hempty & _ & res & m' & rng' & Hp & Hout & Hgen & _).
    rewrite (Hempty eq_refl) in Hgen. by exists res, m', rng'.
  - destruct (perform_normalizes_size (rt := Reference.recording_runtime)
                Inputs.normal_rv ExecutionInputs.node 1%positive [2; 3] 11 [0; 1]
                ExecutionInputs.recording_memory [] eq_refl)
      as (size' & _ & Hfull & res & m' & rng' & Hp & Hout & Hgen & _).
    rewrite (Hfull ltac:(discriminate)) in Hgen. by exists res, m', rng'.
Defined.

(** ** Gradients *)

Section GradientFacts.

Context {V G E T : Type}.

Lemma enumerate_lookup (l : list V) (k : nat) :
  enumerate l !! k = (fun x => (k, x)) <$> l !! k.
Proof. unfold enumerate. apply list_lookup_imap. Qed.

(** C9: [grad] returns, without any exception, one entry per input, and the
    entry of input [k] marks its gradient as undefined; [R_op] returns one
    undefined entry per evaluation point, hence one per input when the
    request has an evaluation point for every input. *)
Theorem grad_and_R_op_undefined (self : RandomVariable) (inputs : list V)
    (outputs : list G) (eval_points : list E) :
  length (grad self inputs outputs) = length inputs
  /\ (forall k inp,
        inputs !! k = Some inp ->
        grad self inputs outputs !! k
        = Some (grad_undefined self k inp
                  "No gradient defined for random variables"))
  /\ length (R_op (T := T) self inputs eval_points) = length eval_points
  /\ (forall k r,
        R_op (T := T) self inputs eval_points !! k = Some r -> r = None)
  /\ (length eval_points = length inputs ->
      forall k inp,
        inputs !! k = Some inp ->
        R_op (T := T) self inputs eval_points !! k = Some None).
Proof.
  unfold grad, R_op.
  change (map ?f ?l) with (f <$> l).
  split; [by rewrite length_fmap; unfold enumerate; rewrite length_imap|].
  split.
  { intros k inp Hk. rewrite list_lookup_fmap, enumerate_lookup, Hk. done. }
  split; [by rewrite length_fmap|].
  split.
  { intros k r. rewrite list_lookup_fmap.
    destruct (eval_points !! k); simpl; congruence. }
  intros Hlen k inp Hk. rewrite list_lookup_fmap.
  apply lookup_lt_Some in Hk. rewrite <- Hlen in Hk.
  destruct (lookup_lt_is_Some_2 eval_points k Hk) as [e ->]. done.
Qed.

End GradientFacts.

Lemma grad_and_R_op_undefined_witness :
  grad (G := unit) Inputs.normal_rv ["rng"; "size"; "dtype"; "mu"] [tt] !! 3%nat
  = Some (grad_undefined Inputs.normal_rv 3 "mu"
            "No gradient defined for random variables")
  /\ R_op (T := unit) Inputs.normal_rv ["rng"; "size"; "dtype"; "mu"]
       ["d_rng"; "d_size"; "d_dtype"; "d_mu"] !! 3%nat
     = Some None.
Proof.
  destruct (grad_and_R_op_undefined (T := unit) Inputs.normal_rv
              ["rng"; "size"; "dtype"; "mu"] [tt]
              ["d_rng"; "d_size"; "d_dtype"; "d_mu"])
    as (_ & Hgrad & _ & _ & Hrop).
  split; [apply Hgrad; reflexivity|].
  apply (Hrop eq_refl 3%nat "mu"). reflexivity.
Defined.

(** ** Construction of the operation *)

Lemma init_inv (cls : ClassAttrs) (name_ : option string)
    (ndim_supp_ : option Z) (ndims_params_ : option NdimsParamsArg)
    (dtype_ : option DtypeArg) (inplace_ : option bool) (self : RandomVariable) :
  __init__ cls name_ ndim_supp_ ndims_params_ dtype_ inplace_ = Ok self ->
  inplace self = resolved_inplace cls inplace_
  /\ destroy_map self
     = if inplace self then Some {[ 0%nat := [0%nat] ]} else None.
Proof.
  unfold __init__, resolved_inplace. intros H.
  destruct (match name_ with
            | Some s => if String.eqb s "" then getattr "name" (cls_name cls)
                        else Ok s
            | None => getattr "name" (cls_name cls)
            end) as [nm|]; simpl in H; [|discriminate].
  destruct (match ndim_supp_ with
            | Some n => Ok n
            | None => getattr "ndim_supp" (cls_ndim_supp cls)
            end) as [ns|]; simpl in H; [|discriminate].
  destruct (match ndims_params_ with
            | Some a => Ok a
            | None => getattr "ndims_params" (cls_ndims_params cls)
            end) as [[l|]|]; simpl in H; try discriminate.
  injection H as <-. simpl. done.
Qed.

(** C10: an operation built with [inplace] true (given, or unset with a
    class-level true) records the destroy map [{0: [0]}], by which output 0
    destroys input 0; an operation built with [inplace] false (given, or
    unset with no class-level true) records no destroy map. *)
Theorem init_destroy_map (cls : ClassAttrs) (name_ : option string)
    (ndim_supp_ : option Z) (ndims_params_ : option NdimsParamsArg)
    (dtype_ : option DtypeArg) (inplace_ : option bool) (self : RandomVariable) :
  __init__ cls name_ ndim_supp_ ndims_params_ dtype_ inplace_ = Ok self ->
  (inplace_ = Some true \/ (inplace_ = None /\ cls_inplace cls = Some true) ->
   inplace self = true
   /\ destroy_map self = Some {[ 0%nat := [0%nat] ]}
   /\ forall out, (exists ins, destroy_map self = Some ins
                               /\ ins !! out = Some [0%nat]) <-> out = 0%nat)
  /\ (inplace_ = Some false
      \/ (inplace_ = None /\ cls_inplace cls <> Some true) ->
      inplace self = false /\ destroy_map self = None).
Proof.
  intros H. apply init_inv in H as [Hin Hmap]. unfold resolved_inplace in Hin.
  split.
  - intros Hon. assert (Ht : inplace self = true).
    { destruct Hon as [->|[-> Hc]]; [done|]. by rewrite Hin, Hc. }
    rewrite Ht in Hmap. split; [done|]. split; [done|].
    intros out. rewrite Hmap. split.
    + intros (ins & Hins & Hl). injection Hins as <-.
      apply lookup_singleton_Some in Hl. by destruct Hl.
    + intros ->. eexists. split; [done|]. apply lookup_singleton_eq.
  - intros Hoff. assert (Hf : inplace self = false).
    { destruct Hoff as [->|[-> Hc]]; [done|]. rewrite Hin.
      destruct (cls_inplace cls) as [[|]|]; simpl; congruence. }
    rewrite Hf in Hmap. done.
Qed.

Lemma init_destroy_map_witness :
  let cls := mkClassAttrs (Some "normal") (Some 0) (Some (IsSequence [0; 0]))
                          (Some (DtStr "floatX")) None in
  (exists self,
      __init__ cls None None None None (Some true) = Ok self
      /\ destroy_map self = Some {[ 0%nat := [0%nat] ]})
  /\ (exists self,
        __init__ cls None None None None None = Ok self
        /\ destroy_map self = None).
Proof.
  intros cls. split.
  - eexists. split; [reflexivity|].
    apply (init_destroy_map cls None None None None (Some true) _ eq_refl).
    by left.
  - eexists. split; [reflexivity|].
    apply (init_destroy_map cls None None None None None _ eq_refl).
    right. split; [reflexivity | discriminate].
Defined.

(** ** Further facts about shape inference *)

Section MoreShapeFacts.

Context {engine : GraphEngine}.

(** What a successful [_infer_shape] went through when [ndim_supp] is not
    [0]. *)
Lemma infer_shape_support_inv (self : RandomVariable)
    (size : list ScalarVariable) (dist_params : list TensorVariable)
    (param_shapes : option (list (list ScalarVariable)))
    (shape : list ScalarVariable) :
  ndim_supp self <> 0 ->
  _infer_shape self size dist_params param_shapes = Ok shape ->
  exists bshapes shape_ind shape_supp,
    params_broadcast_shapes (param_shapes_or param_shapes dist_params)
                            (ndims_params self) = Ok bshapes
    /\ _shape_from_params self dist_params (Some bshapes) = Ok shape_supp
    /\ shape = size ++ shape_ind ++ shape_supp.
Proof.
  intros Hsupp H. unfold _infer_shape in H.
  destruct (Z.eqb_spec (ndim_supp self) 0) as [|_]; [done|]. simpl in H.
  destruct (params_broadcast_shapes _ _) as [bshapes|]; simpl in H;
    [|discriminate].
  destruct (mapM _ _) as [slices|]; simpl in H; [|discriminate].
  destruct (match slices with
            | [] => Ok (0, None)
            | [(_, ind_shape)] => Ok (Py.len ind_shape, Some ind_shape)
            | _ :: _ :: _ =>
                do shape_ind <- broadcast_shape_iter (slices.*2);
                Ok (Py.len shape_ind, Some shape_ind)
            end) as [[ndim_ind shape_ind]|] eqn:Hind; simpl in H;
    [|discriminate].
  destruct (_shape_from_params self dist_params (Some bshapes))
    as [shape_supp|] eqn:Hs; simpl in H; [|discriminate].
  destruct (Z.eqb_spec (ndim_supp self + ndim_ind + get_vector_length size) 0)
    as [Hzero|_].
  - exfalso.
    unfold _shape_from_params, default_shape_from_params in Hs.
    destruct (Z.leb_spec (ndim_supp self) 0); [discriminate|].
    assert (0 <= ndim_ind).
    { destruct slices as [|[? ?] [|? ?]]; simpl in Hind.
      - injection Hind as <- _. lia.
      - injection Hind as <- _. apply len_nonneg.
      - destruct (broadcast_shape_iter _); simpl in Hind; [|discriminate].
        injection Hind as <- _. apply len_nonneg. }
    pose proof (len_nonneg size). unfold get_vector_length in *. lia.
  - destruct shape_ind as [shape_ind|]; [|discriminate].
    injection H as <-. by exists bshapes, shape_ind, shape_supp.
Qed.

End MoreShapeFacts.

Section SupportShapeFacts.

Context {engine : GraphEngine}.

(** X1: [default_shape_from_params] raises the [ndim_supp] error for every
    [ndim_supp <= 0], whatever the parameters, the index and the supplied
    shapes are; hence an operation with a negative [ndim_supp] never gets a
    shape from [_infer_shape] and never builds a node. *)
Theorem nonpositive_ndim_supp_rejected :
  (forall n dist_params idx param_shapes,
      n <= 0 ->
      default_shape_from_params n dist_params idx param_shapes
      = Raise (ValueError "ndim_supp must be greater than 0"))
  /\ (forall self,
        ndim_supp self < 0 ->
        (forall size dist_params param_shapes,
            is_ok (_infer_shape self size dist_params param_shapes) = false)
        /\ (forall rng size dtype_ dist_params,
              is_ok (make_node self rng size dtype_ dist_params) = false)).
Proof.
  assert (Hdef : forall n dp idx ps, n <= 0 ->
            default_shape_from_params n dp idx ps
            = Raise (ValueError "ndim_supp must be greater than 0")).
  { intros n dp idx ps Hn. unfold default_shape_from_params.
    by destruct (Z.leb_spec n 0); [|lia]. }
  split; [exact Hdef|]. intros self Hneg.
  assert (Hinf : forall size dp ps,
            is_ok (_infer_shape self size dp ps) = false).
  { intros size dp ps.
    destruct (_infer_shape self size dp ps) as [shape|] eqn:H; [|done].
    apply infer_shape_support_inv in H as (bs & si & ss & _ & Hs & _); [|lia].
    unfold _shape_from_params in Hs. rewrite Hdef in Hs by lia. discriminate. }
  split; [exact Hinf|]. intros rng size dtype_ dp.
  destruct (make_node self rng size dtype_ dp) as [node|] eqn:H; [|done].
  apply make_node_inv in H as (bcast & _ & _ & _ & Hb & _).
  unfold compute_bcast in Hb. specialize (Hinf (normalize_size_param size) dp None).
  destruct (_infer_shape self (normalize_size_param size) dp None);
    [discriminate | discriminate].
Qed.

(** X2: computed from the parameters, the default rule returns a suffix of
    the reference parameter's shape with exactly [ndim_supp] entries. *)
Theorem default_shape_is_suffix_of_reference (n : Z)
    (dist_params : list TensorVariable) (idx : Z) (ref_param : TensorVariable) :
  0 < n -> Py.getitem dist_params idx = Ok ref_param -> n <= ndim ref_param ->
  exists batch supp,
    default_shape_from_params n dist_params idx None = Ok supp
    /\ shape ref_param = batch ++ supp
    /\ Py.len supp = n
    /\ Py.len batch = ndim ref_param - n.
Proof.
  intros Hn Hget Hle.
  destruct (default_shape_from_dist_params n dist_params idx ref_param Hn Hget Hle)
    as [Hdef Hlen].
  exists (Py.slice_to (shape ref_param) (- n)),
         (Py.slice_from (shape ref_param) (- n)).
  split; [exact Hdef|]. split.
  { unfold Py.slice_to, Py.slice_from. by rewrite take_drop. }
  split; [exact Hlen|].
  unfold Py.slice_to, Py.bound, ndim, broadcastable, shape, Py.len in *.
  rewrite length_take. rewrite !length_fmap in *.
  destruct (Z.ltb_spec (- n) 0); lia.
Qed.

(** X3: the reference parameter is taken by Python indexing.  An index
    outside [-len, len) raises an index error on both branches, and a
    negative index in range counts from the end. *)
Theorem default_shape_reference_index (n : Z) :
  0 < n ->
  (forall dist_params idx,
      idx < - Py.len dist_params \/ Py.len dist_params <= idx ->
      default_shape_from_params n dist_params idx None
      = Raise (IndexError "index out of range"))
  /\ (forall dist_params param_shapes idx,
        idx < - Py.len param_shapes \/ Py.len param_shapes <= idx ->
        default_shape_from_params n dist_params idx (Some param_shapes)
        = Raise (IndexError "index out of range"))
  /\ (forall dist_params idx,
        - Py.len dist_params <= idx < 0 ->
        default_shape_from_params n dist_params idx None
        = default_shape_from_params n dist_params (Py.len dist_params + idx)
            None)
  /\ (forall dist_params param_shapes idx,
        - Py.len param_shapes <= idx < 0 ->
        default_shape_from_params n dist_params idx (Some param_shapes)
        = default_shape_from_params n dist_params (Py.len param_shapes + idx)
            (Some param_shapes)).
Proof.
  intros Hn.
  assert (Hwrap : forall (A : Type) (l : list A) i,
            - Py.len l <= i < 0 -> Py.getitem l i = Py.getitem l (Py.len l + i)).
  { intros A l i Hi. unfold Py.getitem.
    destruct (Z.ltb_spec i 0); [|lia].
    by destruct (Z.ltb_spec (Py.len l + i) 0); [lia|]. }
  unfold default_shape_from_params.
  destruct (Z.leb_spec n 0); [lia|]. repeat split.
  - intros dp idx Hidx. by rewrite getitem_out_of_range.
  - intros dp ps idx Hidx. by rewrite getitem_out_of_range.
  - intros dp idx Hidx. by rewrite Hwrap.
  - intros dp ps idx Hidx. by rewrite Hwrap.
Qed.

(** X4: for [ndim_supp > 0] every shape that [_infer_shape] returns is the
    size in full, then the independent shape, then one support entry.  The
    independent shape is the sliced shape of the parameter when one
    parameter is sliced and the result of [broadcast_shape_iter] on the
    sliced shapes when several are; the support entry is the entry at
    position [-ndim_supp] of the first broadcast parameter shape. *)
Theorem infer_shape_support_layout (self : RandomVariable)
    (size : list ScalarVariable) (dist_params : list TensorVariable)
    (param_shapes : option (list (list ScalarVariable)))
    (shape : list ScalarVariable) :
  0 < ndim_supp self ->
  _infer_shape self size dist_params param_shapes = Ok shape ->
  exists bshapes slices ref shape_ind d,
    params_broadcast_shapes (param_shapes_or param_shapes dist_params)
                            (ndims_params self) = Ok bshapes
    /\ mapM (fun a : TensorVariable * list ScalarVariable * Z =>
               slice_ind_dims a.1.1 a.1.2 a.2)
            (Py.zip3 dist_params bshapes (ndims_params self)) = Ok slices
    /\ match slices with
       | [] => False
       | [(_, ind_shape)] => shape_ind = ind_shape
       | _ :: _ :: _ => broadcast_shape_iter (slices.*2) = Ok shape_ind
       end
    /\ Py.getitem bshapes 0 = Ok ref
    /\ Py.getitem ref (- ndim_supp self) = Ok d
    /\ shape = size ++ shape_ind ++ [d].
Proof.
  intros Hpos H. unfold _infer_shape in H.
  destruct (Z.eqb_spec (ndim_supp self) 0) as [|_]; [lia|]. simpl in H.
  destruct (params_broadcast_shapes _ _) as [bshapes|] eqn:Hb; simpl in H;
    [|discriminate].
  destruct (mapM _ _) as [slices|] eqn:Hm; simpl in H; [|discriminate].
  exists bshapes, slices.
  destruct (match slices with
            | [] => Ok (0, None)
            | [(_, ind_shape)] => Ok (Py.len ind_shape, Some ind_shape)
            | _ :: _ :: _ =>
                do shape_ind <- broadcast_shape_iter (slices.*2);
                Ok (Py.len shape_ind, Some shape_ind)
            end) as [[ndim_ind shape_ind]|] eqn:Hind; simpl in H;
    [|discriminate].
  destruct (_shape_from_params self dist_params (Some bshapes))
    as [shape_supp|] eqn:Hs; simpl in H; [|discriminate].
  unfold _shape_from_params, default_shape_from_params in Hs.
  destruct (Z.leb_spec (ndim_supp self) 0); [lia|].
  destruct (Py.getitem bshapes 0) as [ref|] eqn:Href; simpl in Hs;
    [|discriminate].
  destruct (Py.getitem ref (- ndim_supp self)) as [d|] eqn:Hd; simpl in Hs;
    [|discriminate].
  injection Hs as <-.
  assert (Hnn : 0 <= ndim_ind
                /\ match shape_ind with
                   | None => slices = []
                   | Some si =>
                       match slices with
                       | [] => False
                       | [(_, ind_shape)] => si = ind_shape
                       | _ :: _ :: _ => broadcast_shape_iter (slices.*2) = Ok si
                       end
                   end).
  { destruct slices as [|[? ?] [|? ?]]; simpl in Hind.
    - injection Hind as <- <-. split; [lia | done].
    - injection Hind as <- <-. split; [apply len_nonneg | done].
    - destruct (broadcast_shape_iter _) as [si|]; simpl in Hind;
        [|discriminate].
      injection Hind as <- <-. split; [apply len_nonneg | done]. }
  destruct Hnn as [Hnn Hsi].
  pose proof (len_nonneg size). unfold get_vector_length in *.
  destruct (Z.eqb_spec (ndim_supp self + ndim_ind + Py.len size) 0); [lia|].
  destruct shape_ind as [si|]; [|discriminate].
  injection H as <-. exists ref, si, d. by repeat split.
Qed.

(** X5: for a scalar-support operation with a non-empty size,
    [compute_bcast] never raises and never looks at the parameters: the
    flags are those of the folded size entries. *)
Theorem compute_bcast_scalar_support (self : RandomVariable)
    (size : list ScalarVariable) :
  ndim_supp self = 0 -> size <> [] ->
  forall dist_params,
    compute_bcast self dist_params size
    = Ok (map data_eq_1 (optimize_graph size)).
Proof.
  intros Hsupp Hsize dp. unfold compute_bcast, _infer_shape, get_vector_length.
  rewrite Hsupp. pose proof (len_pos size Hsize).
  by destruct (Z.ltb_spec 0 (Py.len size)); [|lia].
Qed.

(** X6: [slice_ind_dims] on a parameter with [n] support dimensions, [0 < n
    <= ndim], and a shape of as many entries as the parameter has
    dimensions: the independent shape has [ndim - n] entries, the literal
    [1] at the broadcastable dimensions and the entry of the given shape
    elsewhere. *)
Theorem slice_ind_dims_independent_shape (p q : TensorVariable)
    (ps ind_shape : list ScalarVariable) (n : Z) :
  0 < n -> n <= ndim p -> Py.len ps = ndim p ->
  slice_ind_dims p ps n = Ok (q, ind_shape) ->
  Py.len ind_shape = ndim p - n
  /\ forall (i : nat) (s : ScalarVariable) (b : bool),
       Z.of_nat i < ndim p - n ->
       ps !! i = Some s -> broadcastable p !! i = Some b ->
       ind_shape !! i = Some (if b then constant 1 else s).
Proof.
  intros Hn Hle Hlen H. unfold slice_ind_dims in H.
  destruct (Z.eqb_spec n 0); [lia|].
  destruct (subscript p _) as [p_ind|]; simpl in H; [|discriminate].
  injection H as _ <-.
  assert (Hb1 : Py.bound (Py.len ps) (- n) = Z.to_nat (ndim p - n)).
  { unfold Py.bound. destruct (Z.ltb_spec (- n) 0); lia. }
  assert (Hb2 : Py.bound (Py.len (broadcastable p)) (- n)
                = Z.to_nat (ndim p - n)).
  { unfold Py.bound, ndim. destruct (Z.ltb_spec (- n) 0); unfold ndim in *; lia. }
  unfold Py.slice_to. rewrite Hb1, Hb2.
  change (map ?f ?l) with (f <$> l). split.
  - unfold Py.len in *. rewrite length_fmap, length_zip, !length_take.
    unfold ndim, Py.len in *. lia.
  - intros i s b Hi Hs Hb. rewrite list_lookup_fmap.
    rewrite lookup_zip_with.
    rewrite !lookup_take_lt by lia. rewrite Hs, Hb. simpl.
    by destruct b.
Qed.

End SupportShapeFacts.

Lemma nonpositive_ndim_supp_rejected_witness :
  default_shape_from_params 0 [Inputs.tensor "mu" [3]] 0 None
  = Raise (ValueError "ndim_supp must be greater than 0")
  /\ is_ok (@make_node Reference.engine
              (mkRandomVariable "bad" (-1) [1] None false None)
              None SizeNone (Some (DtStr "int64")) [Inputs.tensor "mu" [3]])
     = false.
Proof.
  destruct (nonpositive_ndim_supp_rejected (engine := Reference.engine))
    as [Hdef Hop].
  split; [apply Hdef; lia|].
  apply (Hop (mkRandomVariable "bad" (-1) [1] None false None)). simpl. lia.
Defined.

Lemma default_shape_is_suffix_of_reference_witness :
  exists batch supp,
    default_shape_from_params 2 [Inputs.tensor "V" [2; 3; 4]] 0 None = Ok supp
    /\ [Constant 2; Constant 3; Constant 4] = batch ++ supp
    /\ Py.len supp = 2
    /\ Py.len batch = 1.
Proof.
  apply (default_shape_is_suffix_of_reference 2 [Inputs.tensor "V" [2; 3; 4]] 0
           (Inputs.tensor "V" [2; 3; 4]));
    [lia | reflexivity | vm_compute; discriminate].
Defined.

Lemma default_shape_reference_index_witness :
  default_shape_from_params 1
    [Inputs.tensor "a" [3]; Inputs.tensor "b" [4]] 2 None
  = Raise (IndexError "index out of range")
  /\ default_shape_from_params 1
       [Inputs.tensor "a" [3]; Inputs.tensor "b" [4]] (-1) None
     = default_shape_from_params 1
         [Inputs.tensor "a" [3]; Inputs.tensor "b" [4]] 1 None.
Proof.
  destruct (default_shape_reference_index 1 ltac:(lia))
    as (Hout & _ & Hwrap & _).
  split.
  - apply Hout. right. vm_compute. discriminate.
  - apply (Hwrap [Inputs.tensor "a" [3]; Inputs.tensor "b" [4]] (-1)).
    vm_compute. split; [discriminate | reflexivity].
Defined.

Lemma infer_shape_support_layout_witness :
  exists bshapes slices ref shape_ind d,
    Reference.params_broadcast_shapes
      [[Constant 7; Constant 8; Constant 5]; [Constant 1; Constant 1; Constant 5]]
      [1; 1] = Ok bshapes
    /\ mapM (fun a : TensorVariable * list ScalarVariable * Z =>
               @slice_ind_dims Reference.engine a.1.1 a.1.2 a.2)
            (Py.zip3 [Inputs.tensor "m" [7; 8; 5]; Inputs.tensor "s" [1; 1; 5]]
                     bshapes [1; 1]) = Ok slices
    /\ match slices with
       | [] => False
       | [(_, ind_shape)] => shape_ind = ind_shape
       | _ :: _ :: _ => Reference.broadcast_shape_iter (slices.*2) = Ok shape_ind
       end
    /\ Py.getitem bshapes 0 = Ok ref
    /\ Py.getitem ref (- 1) = Ok d
    /\ [Constant 2; Constant 7; Constant 8; Constant 5]
       = [Constant 2] ++ shape_ind ++ [d].
Proof.
  apply (infer_shape_support_layout (engine := Reference.engine)
           (mkRandomVariable "pair" 1 [1; 1] None false None) [Constant 2]
           [Inputs.tensor "m" [7; 8; 5]; Inputs.tensor "s" [1; 1; 5]] None
           [Constant 2; Constant 7; Constant 8; Constant 5]);
    [simpl; lia | reflexivity].
Defined.

Lemma compute_bcast_scalar_support_witness :
  @compute_bcast Reference.engine Inputs.normal_rv
    [Inputs.tensor "mu" [3]; Inputs.tensor "sigma" [4]]
    [Constant 1; Constant 3]
  = Ok [true; false].
Proof.
  apply (compute_bcast_scalar_support (engine := Reference.engine)
           Inputs.normal_rv [Constant 1; Constant 3]);
    [reflexivity | discriminate].
Defined.

Lemma slice_ind_dims_independent_shape_witness :
  exists q ind_shape,
    @slice_ind_dims Reference.engine (Inputs.tensor "V" [1; 4; 3])
      [Constant 1; Constant 4; Constant 3] 1 = Ok (q, ind_shape)
    /\ Py.len ind_shape = 2
    /\ ind_shape !! 0%nat = Some (Constant 1)
    /\ ind_shape !! 1%nat = Some (Constant 4).
Proof.
  eexists _, _. split; [reflexivity|].
  destruct (slice_ind_dims_independent_shape (engine := Reference.engine)
              (Inputs.tensor "V" [1; 4; 3]) _
              [Constant 1; Constant 4; Constant 3] _ 1
              ltac:(lia) ltac:(vm_compute; discriminate) eq_refl eq_refl)
    as [Hlen Hent].
  split; [exact Hlen|]. split.
  - apply (Hent 0%nat (Constant 1) true); [vm_compute|..]; reflexivity.
  - apply (Hent 1%nat (Constant 4) false); [vm_compute|..]; reflexivity.
Defined.

(** ** Further facts about node construction *)

Section MoreNodeFacts.

Context {engine : GraphEngine}.

(** The shape does not depend on whether the parameters' own shapes are
    supplied or computed. *)
Lemma infer_shape_own_shapes (self : RandomVariable)
    (size : list ScalarVariable) (dist_params : list TensorVariable) :
  _infer_shape self size dist_params (Some (map shape_tuple dist_params))
  = _infer_shape self size dist_params None
  /\ _infer_shape self size dist_params (Some [])
     = _infer_shape self size dist_params None.
Proof.
  unfold _infer_shape.
  assert (Hor : param_shapes_or (Some (map shape_tuple dist_params)) dist_params
                = param_shapes_or None dist_params).
  { unfold param_shapes_or. by destruct dist_params. }
  rewrite Hor. done.
Qed.

(** An index-resolved dtype resolves to itself again. *)
Lemma resolve_dtype_by_index (self : RandomVariable)
    (caller : option DtypeArg) (dt : string) (idx : Z) :
  resolve_dtype self caller = Ok (dt, idx) ->
  resolve_dtype self (Some (DtIdx idx)) = Ok (dt, idx).
Proof.
  assert (Hname : forall s : string,
            (do i <- Py.index all_dtypes s;
             do dtype_idx <- int64_constant i;
             Ok (s, dtype_idx)) = Ok (dt, idx) ->
            (do dtype_idx <- int64_constant idx;
             do s <- Py.getitem all_dtypes dtype_idx;
             Ok (s, dtype_idx)) = Ok (dt, idx)).
  { intros s. destruct (Py.index all_dtypes s) as [j|] eqn:Hj; simpl;
      [|discriminate].
    destruct (int64_constant j) as [k|] eqn:Hk; simpl; [|discriminate].
    intros H. injection H as <- <-.
    apply int64_constant_Ok in Hk as [-> Hr].
    rewrite (int64_constant_in_range j Hr). simpl.
    by rewrite (index_getitem _ _ _ Hj). }
  intros H. destruct (truthy (dtype self)) eqn:Ht.
  - by rewrite (resolve_dtype_declared self _ caller Ht).
  - rewrite (resolve_dtype_index self (Some (DtIdx idx)) idx)
      by (by apply py_or_caller).
    unfold resolve_dtype in H. rewrite (py_or_caller self caller Ht) in H.
    destruct caller as [[s|i]|]; simpl in H; [| |discriminate].
    + destruct (String.eqb_spec s "floatX"); simpl in H; [by apply Hname in H|].
      destruct (Py.contains all_dtypes s); simpl in H; [|discriminate].
      by apply Hname in H.
    + destruct (int64_constant i) as [k|] eqn:Hk; simpl in H; [|discriminate].
      destruct (Py.getitem all_dtypes k) as [d|] eqn:Hd; simpl in H;
        [|discriminate].
      injection H as <- <-.
      apply int64_constant_Ok in Hk as [-> Hr].
      rewrite (int64_constant_in_range i Hr). simpl. by rewrite Hd.
Qed.

(** X7: a supplied generator handle whose type is not a random type makes
    [make_node] raise its type error whatever the size, the dtype and the
    parameters are; and in every node that is built the first output has the
    type of the generator input, which is a random type. *)
Theorem make_node_generator_type :
  (forall self r size dtype_ dist_params,
      is_RandomType (rng_type r) = false ->
      make_node self (Some r) size dtype_ dist_params
      = Raise (TypeError
          "The type of rng should be an instance of either RandomGeneratorType or RandomStateType"))
  /\ (forall self rng size dtype_ dist_params node,
        make_node self rng size dtype_ dist_params = Ok node ->
        out_rng node = rng_type (in_rng node)
        /\ is_RandomType (out_rng node) = true
        /\ in_rng node = default SharedDefaultRng rng).
Proof.
  split.
  - intros self r size dtype_ dp Hr. unfold make_node. by rewrite Hr.
  - intros self rng size dtype_ dp node H. unfold make_node in H.
    destruct rng as [r|]; simpl in H.
    + destruct (is_RandomType (rng_type r)) eqn:Hr; simpl in H; [|discriminate].
      destruct (compute_bcast _ _ _); simpl in H; [|discriminate].
      destruct (resolve_dtype _ _) as [[dt idx]|]; simpl in H; [|discriminate].
      injection H as <-. simpl. done.
    + destruct (compute_bcast _ _ _); simpl in H; [|discriminate].
      destruct (resolve_dtype _ _) as [[dt idx]|]; simpl in H; [|discriminate].
      injection H as <-. simpl. done.
Qed.

(** X8: on a node that [make_node] built, [infer_shape] with the parameters'
    own shapes, or with no shapes at all, gives no shape for the generator
    output and, for the sample, the shape whose folded entries gave the
    flags of the sample's type. *)
Theorem infer_shape_agrees_with_make_node (self : RandomVariable)
    (rng : option RngVariable) (size : SizeArg) (dtype_ : option DtypeArg)
    (dist_params : list TensorVariable) (node : Apply) :
  make_node self rng size dtype_ dist_params = Ok node ->
  exists shape,
    infer_shape (op node) node (map shape_tuple (in_dist_params node))
    = Ok (None, shape)
    /\ infer_shape (op node) node [] = Ok (None, shape)
    /\ tt_broadcastable (out_var node) = map data_eq_1 (optimize_graph shape).
Proof.
  intros H. apply make_node_inv in H
    as (bcast & dt & idx & _ & Hb & _ & Hout & _ & Hsize & Hdp & Hop).
  unfold compute_bcast in Hb.
  destruct (_infer_shape self (normalize_size_param size) dist_params None)
    as [shape|] eqn:Hs; simpl in Hb; [|discriminate].
  injection Hb as <-. exists shape.
  unfold infer_shape. rewrite Hop, Hsize, Hdp.
  destruct (infer_shape_own_shapes self (normalize_size_param size) dist_params)
    as [-> ->].
  rewrite Hs, Hout. done.
Qed.

(** X9: a node is rebuilt from its own inputs: [make_node] applied to the
    generator, the size, the dtype index and the parameters of a node it
    built returns that node. *)
Theorem make_node_rebuild (self : RandomVariable)
    (rng : option RngVariable) (size : SizeArg) (dtype_ : option DtypeArg)
    (dist_params : list TensorVariable) (node : Apply) :
  make_node self rng size dtype_ dist_params = Ok node ->
  make_node (op node) (Some (in_rng node)) (SizeSeq (in_size node))
            (Some (DtIdx (in_dtype_idx node))) (in_dist_params node)
  = Ok node.
Proof.
  intros H. unfold make_node in H.
  assert (Hgen : forall r : RngVariable,
            is_RandomType (rng_type r) = true ->
            (do bcast <- compute_bcast self dist_params (normalize_size_param size);
             do dt <- resolve_dtype self dtype_;
             let '(dtype_, dtype_idx) := dt in
             Ok {| op := self; in_rng := r;
                   in_size := normalize_size_param size;
                   in_dtype_idx := dtype_idx;
                   in_dist_params := dist_params;
                   out_rng := rng_type r;
                   out_var := {| tt_dtype := dtype_;
                                 tt_broadcastable := bcast |} |}) = Ok node ->
            make_node (op node) (Some (in_rng node)) (SizeSeq (in_size node))
                      (Some (DtIdx (in_dtype_idx node))) (in_dist_params node)
            = Ok node).
  { intros r Hr Hn.
    destruct (compute_bcast self dist_params (normalize_size_param size))
      as [bcast|] eqn:Hb; simpl in Hn; [|discriminate].
    destruct (resolve_dtype self dtype_) as [[dt idx]|] eqn:Hd; simpl in Hn;
      [|discriminate].
    injection Hn as <-. unfold make_node. simpl. rewrite Hr. simpl.
    rewrite Hb. simpl. rewrite (resolve_dtype_by_index _ _ _ _ Hd). done. }
  destruct rng as [r|]; simpl in H.
  - destruct (is_RandomType (rng_type r)) eqn:Hr; simpl in H; [|discriminate].
    by apply (Hgen r).
  - by apply (Hgen SharedDefaultRng).
Qed.

(** X10: a dtype given by index, for an operation that declares none, once
    the generator and the shape are accepted.  The index is first made an
    int64 constant.  An int64 index in [-len, len) builds a node with the
    catalogue entry at that index, counted from the end when negative, and
    keeps the index as given; any other int64 index raises an index error;
    an index that is not an int64 builds no node. *)
Theorem make_node_dtype_by_index (self : RandomVariable)
    (rng : option RngVariable) (size : SizeArg)
    (dist_params : list TensorVariable) (bcast : list bool) (i : Z) :
  truthy (dtype self) = false ->
  rng_accepted rng ->
  compute_bcast self dist_params (normalize_size_param size) = Ok bcast ->
  (- 2 ^ 63 <= i < 2 ^ 63 ->
   - Py.len all_dtypes <= i < Py.len all_dtypes ->
   exists node d,
     make_node self rng size (Some (DtIdx i)) dist_params = Ok node
     /\ all_dtypes !! Z.to_nat (i mod Py.len all_dtypes) = Some d
     /\ tt_dtype (out_var node) = d
     /\ in_dtype_idx node = i)
  /\ (- 2 ^ 63 <= i < 2 ^ 63 ->
      i < - Py.len all_dtypes \/ Py.len all_dtypes <= i ->
      make_node self rng size (Some (DtIdx i)) dist_params
      = Raise (IndexError "index out of range"))
  /\ (i < - 2 ^ 63 \/ 2 ^ 63 <= i ->
      is_ok (make_node self rng size (Some (DtIdx i)) dist_params) = false).
Proof.
  intros Ht Hrng Hb.
  pose proof (make_node_dtype self rng size (Some (DtIdx i)) dist_params bcast
                Hrng Hb) as Hmk.
  rewrite (resolve_dtype_index self (Some (DtIdx i)) i) in Hmk
    by (by apply py_or_caller).
  split; [|split].
  - intros Hr Hi. rewrite (int64_constant_in_range i Hr) in Hmk.
    destruct (getitem_in_range all_dtypes i Hi) as (d & Hd & Hl).
    simpl in Hmk. rewrite Hd in Hmk. simpl in Hmk.
    destruct Hmk as (node & Hn & Hout & Hidx).
    exists node, d. rewrite Hout. by repeat split.
  - intros Hr Hi. rewrite (int64_constant_in_range i Hr) in Hmk.
    simpl in Hmk. by rewrite (getitem_out_of_range all_dtypes i Hi) in Hmk.
  - intros Hr. pose proof (int64_constant_out_of_range i Hr) as Hc.
    destruct (int64_constant i) as [k|e]; [discriminate|].
    simpl in Hmk. by rewrite Hmk.
Qed.

(** X11: an exception of the shape inference is the exception of
    [make_node], whatever dtype is asked for: for an accepted generator the
    shape is checked before the dtype. *)
Theorem make_node_shape_error_first (self : RandomVariable)
    (rng : option RngVariable) (size : SizeArg) (dtype_ : option DtypeArg)
    (dist_params : list TensorVariable) (e : Exception) :
  rng_accepted rng ->
  _infer_shape self (normalize_size_param size) dist_params None = Raise e ->
  make_node self rng size dtype_ dist_params = Raise e.
Proof.
  intros Hrng He. unfold make_node, compute_bcast. rewrite He.
  destruct rng as [r|]; simpl in *; [by rewrite Hrng | done].
Qed.

End MoreNodeFacts.

Lemma make_node_generator_type_witness :
  @make_node Reference.engine Inputs.normal_rv
    (Some (GraphRng "x" OtherType)) SizeNone None [] 
  = Raise (TypeError
      "The type of rng should be an instance of either RandomGeneratorType or RandomStateType")
  /\ exists node,
      @make_node Reference.engine Inputs.normal_rv
        (Some (GraphRng "rng" RandomStateType)) SizeNone None
        [Inputs.tensor "mu" []; Inputs.tensor "sigma" []] = Ok node
      /\ out_rng node = RandomStateType.
Proof.
  destruct (make_node_generator_type (engine := Reference.engine))
    as [Hbad Hgood].
  split; [by apply Hbad|].
  eexists. split; [reflexivity|].
  destruct (Hgood Inputs.normal_rv (Some (GraphRng "rng" RandomStateType))
              SizeNone None [Inputs.tensor "mu" []; Inputs.tensor "sigma" []]
              _ eq_refl) as (Hout & _ & _).
  exact Hout.
Defined.

Lemma infer_shape_agrees_with_make_node_witness :
  exists node shape,
    @make_node Reference.engine Inputs.vector_rv None (SizeInt 1)
      (Some (DtStr "float32")) [Inputs.tensor "alpha" [5]] = Ok node
    /\ @infer_shape Reference.engine (op node) node [] = Ok (None, shape)
    /\ tt_broadcastable (out_var node)
       = map data_eq_1 (@optimize_graph Reference.engine shape).
Proof.
  eexists.
  destruct (infer_shape_agrees_with_make_node (engine := Reference.engine)
              Inputs.vector_rv None (SizeInt 1) (Some (DtStr "float32"))
              [Inputs.tensor "alpha" [5]] _ eq_refl)
    as (shape & _ & Hempty & Hflags).
  exists shape. split; [reflexivity|]. split; [exact Hempty | exact Hflags].
Defined.

Lemma make_node_rebuild_witness :
  exists node,
    @make_node Reference.engine Inputs.vector_rv None (SizeInt 2)
      (Some (DtStr "float32")) [Inputs.tensor "alpha" [5]] = Ok node
    /\ @make_node Reference.engine Inputs.vector_rv (Some SharedDefaultRng)
         (SizeSeq [Constant 2]) (Some (DtIdx 10)) [Inputs.tensor "alpha" [5]]
       = Ok node.
Proof.
  eexists. split; [reflexivity|].
  apply (make_node_rebuild (engine := Reference.engine)
           Inputs.vector_rv None (SizeInt 2) (Some (DtStr "float32"))
           [Inputs.tensor "alpha" [5]] _ eq_refl).
Defined.

Lemma make_node_dtype_by_index_witness :
  (exists node,
      @make_node Reference.engine Inputs.vector_rv None SizeNone
        (Some (DtIdx (-1))) [Inputs.tensor "alpha" [5]] = Ok node
      /\ tt_dtype (out_var node) = "complex128"
      /\ in_dtype_idx node = -1)
  /\ @make_node Reference.engine Inputs.vector_rv None SizeNone
       (Some (DtIdx 14)) [Inputs.tensor "alpha" [5]]
     = Raise (IndexError "index out of range")
  /\ is_ok (@make_node Reference.engine Inputs.vector_rv None SizeNone
              (Some (DtIdx (2 ^ 63))) [Inputs.tensor "alpha" [5]]) = false.
Proof.
  split; [|split].
  - destruct (make_node_dtype_by_index (engine := Reference.engine)
                Inputs.vector_rv None SizeNone [Inputs.tensor "alpha" [5]]
                [false] (-1) eq_refl I eq_refl) as [Hin _].
    destruct Hin as (node & d & Hn & Hd & Hdt & Hidx);
      [vm_compute; split; [discriminate | reflexivity]
      |vm_compute; split; [discriminate | reflexivity]|].
    exists node. split; [exact Hn|]. split; [|exact Hidx].
    rewrite Hdt. vm_compute in Hd. congruence.
  - apply (make_node_dtype_by_index (engine := Reference.engine)
             Inputs.vector_rv None SizeNone [Inputs.tensor "alpha" [5]]
             [false] 14 eq_refl I eq_refl).
    + vm_compute. split; [discriminate | reflexivity].
    + right. vm_compute. discriminate.
  - apply (make_node_dtype_by_index (engine := Reference.engine)
             Inputs.vector_rv None SizeNone [Inputs.tensor "alpha" [5]]
             [false] (2 ^ 63) eq_refl I eq_refl).
    right. vm_compute. discriminate.
Defined.

Lemma make_node_shape_error_first_witness :
  @make_node Reference.engine Inputs.vector_rv None SizeNone None
    [Inputs.tensor "alpha" []]
  = Raise (IndexError "too many indices for array").
Proof.
  apply (make_node_shape_error_first (engine := Reference.engine)
           Inputs.vector_rv None SizeNone None [Inputs.tensor "alpha" []]
           (IndexError "too many indices for array") I eq_refl).
Defined.

(** ** Further facts about execution *)

Section MoreExecutorFacts.

Context {rt : Runtime}.

(** X12: under the in-place policy two executions in a row on the same
    generator are two consecutive calls of the kernel on one state: the
    second draw starts from the position the first one left, the first
    output cell holds the incoming generator itself, no generator object is
    created, and no other generator changes. *)
Theorem perform_inplace_threads_state (self : RandomVariable) (node : Apply)
    (rng : loc) (size1 size2 : list Z) (dtype_ : Z)
    (args1 args2 : list payload) (m : Memory) (st : rng_state) :
  inplace self = true -> generators m !! rng = Some st ->
  let out1 := numpy_method (name self) st args1 (kernel_size size1) in
  let out2 := numpy_method (name self) out1.1 args2 (kernel_size size2) in
  exists r1 m1 r2 m2,
    perform self node rng size1 dtype_ args1 m = Some (r1, m1)
    /\ perform self node rng size2 dtype_ args2 m1 = Some (r2, m2)
    /\ rng_var_out m1 = Some rng /\ rng_var_out m2 = Some rng
    /\ generators m1 !! rng = Some out1.1
    /\ generators m2 !! rng = Some out2.1
    /\ (r1, smpl_out m1) = emitted node out1.2 (smpl_out m)
    /\ (r2, smpl_out m2) = emitted node out2.2 (smpl_out m1)
    /\ dom (generators m2) = dom (generators m)
    /\ (forall l, l <> rng -> generators m2 !! l = generators m !! l).
Proof.
  intros Hin Hst out1 out2.
  pose proof (perform_inplace self node rng size1 dtype_ args1 m st Hin Hst)
    as H1. cbv zeta in H1. fold out1 in H1.
  set (m1 := mkMemory (<[rng := out1.1]> (generators m)) (Some rng)
                      (emitted node out1.2 (smpl_out m)).2) in *.
  assert (Hst1 : generators m1 !! rng = Some out1.1).
  { simpl. by rewrite lookup_insert_eq. }
  pose proof (perform_inplace self node rng size2 dtype_ args2 m1 out1.1
                Hin Hst1) as H2. cbv zeta in H2. fold out2 in H2.
  eexists _, m1, _, _. split; [exact H1|]. split; [exact H2|].
  split; [done|]. split; [done|]. split; [done|].
  split; [simpl; by rewrite lookup_insert_eq|].
  split; [symmetry; apply surjective_pairing|].
  split; [symmetry; apply surjective_pairing|].
  split.
  - simpl. rewrite insert_insert_eq. rewrite dom_insert_L.
    assert (Hdom : rng ∈ dom (generators m)) by (apply elem_of_dom; by eexists).
    apply set_eq. intros l. rewrite elem_of_union, elem_of_singleton.
    split; [intros [->|?]; done | by right].
  - intros l Hl. simpl. by rewrite !lookup_insert_ne.
Qed.

(** X13: when the kernel raises, [perform] reports that exception and leaves
    the sample cell as it was, but the first output cell has already been
    set; under the in-place policy the incoming generator is left in the
    position the failed call reached, under the copy policy it keeps its
    position. *)
Theorem perform_kernel_exception (self : RandomVariable) (node : Apply)
    (rng : loc) (size : list Z) (dtype_ : Z) (args : list payload)
    (m : Memory) (st : rng_state) (e : Exception) :
  generators m !! rng = Some st ->
  (numpy_method (name self) st args (kernel_size size)).2 = Raise e ->
  exists m' rng',
    perform self node rng size dtype_ args m = Some (Raise e, m')
    /\ smpl_out m' = smpl_out m
    /\ rng_var_out m' = Some rng'
    /\ (inplace self = true ->
        rng' = rng
        /\ generators m' !! rng
           = Some (numpy_method (name self) st args (kernel_size size)).1)
    /\ (inplace self = false ->
        rng' <> rng /\ generators m' !! rng = Some st).
Proof.
  intros Hst He. destruct (inplace self) eqn:Hin.
  - rewrite (perform_inplace self node rng size dtype_ args m st Hin Hst).
    unfold emitted. rewrite He. eexists _, rng.
    split; [done|]. simpl. split; [done|]. split; [done|]. split; [|done].
    intros _. split; [done|]. by rewrite lookup_insert_eq.
  - rewrite (perform_copy self node rng size dtype_ args m st Hin Hst).
    unfold emitted. rewrite He. eexists _, _.
    split; [done|]. simpl. split; [done|]. split; [done|]. split; [done|].
    intros _. destruct (fresh_generator m rng st Hst) as [Hne _].
    split; [done|]. by rewrite lookup_insert_ne.
Qed.

End MoreExecutorFacts.

Lemma perform_inplace_threads_state_witness :
  exists r1 m1 r2 m2,
    @perform Reference.counter_runtime Inputs.inplace_rv ExecutionInputs.node
       1%positive [] 11 [0; 1] ExecutionInputs.counter_memory = Some (r1, m1)
    /\ @perform Reference.counter_runtime Inputs.inplace_rv ExecutionInputs.node
         1%positive [] 11 [0; 1] m1 = Some (r2, m2)
    /\ @generators Reference.counter_runtime m1 !! 1%positive = Some 11
    /\ @generators Reference.counter_runtime m2 !! 1%positive = Some 12
    /\ @smpl_out Reference.counter_runtime m1 = Some ("float64", 10)
    /\ @smpl_out Reference.counter_runtime m2 = Some ("float64", 11).
Proof.
  destruct (perform_inplace_threads_state (rt := Reference.counter_runtime)
              Inputs.inplace_rv ExecutionInputs.node 1%positive [] [] 11
              [0; 1] [0; 1] ExecutionInputs.counter_memory 10 eq_refl eq_refl)
    as (r1 & m1 & r2 & m2 & H1 & H2 & _ & _ & Hg1 & Hg2 & He1 & He2 & _).
  exists r1, m1, r2, m2.
  split; [exact H1|]. split; [exact H2|].
  split; [exact Hg1|]. split; [exact Hg2|].
  injection He1 as _ Hs1. injection He2 as _ Hs2.
  split; [exact Hs1 | exact Hs2].
Defined.

Lemma perform_kernel_exception_witness :
  exists m' rng',
    @perform Reference.failing_runtime Inputs.normal_rv ExecutionInputs.node
       1%positive [] 11 [0; 1] ExecutionInputs.failing_memory
    = Some (Raise (ValueError "scale < 0"), m')
    /\ @smpl_out Reference.failing_runtime m' = Some ("float64", 7)
    /\ @rng_var_out Reference.failing_runtime m' = Some rng'
    /\ @generators Reference.failing_runtime m' !! 1%positive = Some 10.
Proof.
  destruct (perform_kernel_exception (rt := Reference.failing_runtime)
              Inputs.normal_rv ExecutionInputs.node 1%positive [] 11 [0; 1]
              ExecutionInputs.failing_memory 10 (ValueError "scale < 0")
              eq_refl eq_refl)
    as (m' & rng' & Hp & Hs & Ho & _ & Hcopy).
  exists m', rng'. split; [exact Hp|]. split; [exact Hs|]. split; [exact Ho|].
  apply Hcopy. reflexivity.
Defined.

(** ** Further facts about the construction of the operation *)

Lemma init_fields (cls : ClassAttrs) (name_ : option string)
    (ndim_supp_ : option Z) (ndims_params_ : option NdimsParamsArg)
    (dtype_ : option DtypeArg) (inplace_ : option bool) (self : RandomVariable) :
  __init__ cls name_ ndim_supp_ ndims_params_ dtype_ inplace_ = Ok self ->
  dtype self = py_or dtype_ (cls_dtype cls)
  /\ inplace self = resolved_inplace cls inplace_.
Proof.
  unfold __init__, resolved_inplace. intros H.
  destruct (match name_ with
            | Some s => if String.eqb s "" then getattr "name" (cls_name cls)
                        else Ok s
            | None => getattr "name" (cls_name cls)
            end) as [nm|]; simpl in H; [|discriminate].
  destruct (match ndim_supp_ with
            | Some n => Ok n
            | None => getattr "ndim_supp" (cls_ndim_supp cls)
            end) as [ns|]; simpl in H; [|discriminate].
  destruct (match ndims_params_ with
            | Some a => Ok a
            | None => getattr "ndims_params" (cls_ndims_params cls)
            end) as [[l|]|]; simpl in H; try discriminate.
  injection H as <-. simpl. done.
Qed.

(** X14: what [__init__] refuses.  Without a name, given or at class level
    (an empty name counts as none), it raises the attribute error for
    [name] whatever the other arguments are; with a name and an [ndim_supp],
    an [ndims_params] that is not a sequence, given or at class level,
    raises the type error. *)
Theorem init_rejects :
  (forall cls name_ ndim_supp_ ndims_params_ dtype_ inplace_,
      name_ = None \/ name_ = Some "" ->
      cls_name cls = None ->
      __init__ cls name_ ndim_supp_ ndims_params_ dtype_ inplace_
      = Raise (AttributeError "name"))
  /\ (forall cls nm ns ndims_params_ dtype_ inplace_,
        nm <> "" ->
        ndims_params_ = Some NotSequence
        \/ (ndims_params_ = None /\ cls_ndims_params cls = Some NotSequence) ->
        __init__ cls (Some nm) (Some ns) ndims_params_ dtype_ inplace_
        = Raise (TypeError "Parameter ndims_params must be sequence type.")).
Proof.
  split.
  - intros cls name_ nds ndp dt inp Hname Hcls. unfold __init__.
    destruct Hname as [->| ->]; simpl; by rewrite Hcls.
  - intros cls nm ns ndp dt inp Hnm Hndp. unfold __init__.
    destruct (String.eqb_spec nm ""); [done|]. simpl.
    destruct Hndp as [->|[-> ->]]; done.
Qed.

(** X15: arguments that are given take precedence over the class: with a
    non-empty name, an [ndim_supp], an [ndims_params], a dtype that is set
    and a mutation policy all given, [__init__] returns the same operation
    for every class, and that operation carries the arguments. *)
Theorem init_explicit_arguments (cls cls' : ClassAttrs) (nm : string)
    (ns : Z) (l : list Z) (d : DtypeArg) (b : bool) :
  nm <> "" -> truthy (Some d) = true ->
  __init__ cls (Some nm) (Some ns) (Some (IsSequence l)) (Some d) (Some b)
  = __init__ cls' (Some nm) (Some ns) (Some (IsSequence l)) (Some d) (Some b)
  /\ exists self,
      __init__ cls (Some nm) (Some ns) (Some (IsSequence l)) (Some d) (Some b)
      = Ok self
      /\ name self = nm /\ ndim_supp self = ns /\ ndims_params self = l
      /\ dtype self = Some d /\ inplace self = b.
Proof.
  intros Hnm Hd. unfold __init__, py_or. rewrite Hd.
  destruct (String.eqb_spec nm ""); [done|]. simpl.
  split; [done|]. eexists. split; [done|]. simpl. done.
Qed.

(** X16: the dtype of a node goes by three ranks: the dtype given to
    [__init__], then the class-level dtype, then the dtype given to
    [make_node].  When one of the first two is set, [make_node] on the
    operation that [__init__] returns ignores the caller's dtype. *)
Theorem init_dtype_precedes_make_node {engine : GraphEngine}
    (cls : ClassAttrs) (name_ : option string)
    (ndim_supp_ : option Z) (ndims_params_ : option NdimsParamsArg)
    (dtype_ : option DtypeArg) (inplace_ : option bool) (self : RandomVariable) :
  __init__ cls name_ ndim_supp_ ndims_params_ dtype_ inplace_ = Ok self ->
  (truthy dtype_ = true -> dtype self = dtype_)
  /\ (truthy dtype_ = false -> dtype self = cls_dtype cls)
  /\ (truthy dtype_ = true \/ truthy (cls_dtype cls) = true ->
      forall rng size caller caller' dist_params,
        make_node self rng size caller dist_params
        = make_node self rng size caller' dist_params)
  /\ (truthy dtype_ = false -> truthy (cls_dtype cls) = false ->
      forall caller, resolve_dtype self caller
                     = resolve_dtype (mkRandomVariable (name self)
                         (ndim_supp self) (ndims_params self) None
                         (inplace self) (destroy_map self)) caller).
Proof.
  intros H. apply init_fields in H as [Hdt _]. unfold py_or in Hdt.
  split; [by intros Ht; rewrite Ht in Hdt|].
  split; [by intros Ht; rewrite Ht in Hdt|].
  split.
  - intros Hset rng size caller caller' dp.
    assert (Ht : truthy (dtype self) = true).
    { rewrite Hdt. destruct (truthy dtype_) eqn:Hd; [done|].
      by destruct Hset. }
    unfold make_node. by rewrite (resolve_dtype_declared self caller caller' Ht).
  - intros Hd Hc caller. rewrite Hd in Hdt.
    unfold resolve_dtype, py_or. simpl. by rewrite Hdt, Hc.
Qed.

(** X17: the destroy map tells the truth about [perform].  For an operation
    that [__init__] returned, an execution never changes a generator other
    than its generator input, and when the operation records no destroy map
    it does not change that one either. *)
Theorem destroy_map_is_honest {rt : Runtime}
    (cls : ClassAttrs) (name_ : option string)
    (ndim_supp_ : option Z) (ndims_params_ : option NdimsParamsArg)
    (dtype_ : option DtypeArg) (inplace_ : option bool) (self : RandomVariable)
    (node : Apply) (rng : loc) (size : list Z) (idx : Z)
    (args : list payload) (m : Memory) (st : rng_state) :
  __init__ cls name_ ndim_supp_ ndims_params_ dtype_ inplace_ = Ok self ->
  generators m !! rng = Some st ->
  exists r m',
    perform self node rng size idx args m = Some (r, m')
    /\ (forall l s, l <> rng -> generators m !! l = Some s ->
                    generators m' !! l = Some s)
    /\ (destroy_map self = None -> generators m' !! rng = Some st)
    /\ (generators m' !! rng <> Some st ->
        destroy_map self = Some {[ 0%nat := [0%nat] ]}).
Proof.
  intros Hinit Hst. apply init_inv in Hinit as [_ Hmap].
  destruct (inplace self) eqn:Hin.
  - rewrite (perform_inplace self node rng size idx args m st Hin Hst).
    eexists _, _. split; [done|]. simpl. split.
    + intros l s Hl Hs. by rewrite lookup_insert_ne.
    + split; [by rewrite Hmap | done].
  - rewrite (perform_copy self node rng size idx args m st Hin Hst).
    destruct (fresh_generator m rng st Hst) as [Hne Hnew].
    eexists _, _. split; [done|]. simpl. split.
    + intros l s Hl Hs. rewrite lookup_insert_ne; [done|].
      intros <-. congruence.
    + rewrite lookup_insert_ne by done. split; [done|]. intros Hc. by destruct Hc.
Qed.

(** ** Facts about the display *)

Lemma append_inj_l (s a b : string) :
  String.append s a = String.append s b -> a = b.
Proof.
  induction s as [|c s IH]; simpl; [done|]. intros H. injection H as H. auto.
Qed.

Lemma append_assoc_l (a b c : string) :
  String.append (String.append a b) c = String.append a (String.append b c).
Proof.
  induction a as [|x a IH]; [reflexivity|].
  change (String x (String.append (String.append a b) c)
          = String x (String.append a (String.append b c))).
  by rewrite IH.
Qed.

(** X18: the display of an operation.  Two operations with the same name,
    [ndim_supp], [ndims_params] and dtype are displayed alike exactly when
    they have the same mutation policy; but the display does not tell an
    operation without a dtype from one whose dtype is named ["None"]. *)
Theorem str_shows_policy_not_dtype :
  (forall self self',
      name self = name self' -> ndim_supp self = ndim_supp self' ->
      ndims_params self = ndims_params self' -> dtype self = dtype self' ->
      (__str__ self = __str__ self' <-> inplace self = inplace self'))
  /\ (forall nm ns l b dm dm',
        __str__ (mkRandomVariable nm ns l None b dm)
        = __str__ (mkRandomVariable nm ns l (Some (DtStr "None")) b dm')).
Proof.
  split; [|done].
  intros self self' Hn Hs Hp Hd. unfold __str__.
  rewrite Hn, Hs, Hp, Hd. split.
  - intros H. cbn [String.concat] in H.
    repeat (apply append_inj_l in H). rewrite !append_assoc_l in H.
    repeat (apply append_inj_l in H).
    destruct (inplace self), (inplace self'); simpl in H; done.
  - by intros ->.
Qed.

Lemma init_rejects_witness :
  __init__ Inputs.bare_class (Some "") (Some 0) (Some (IsSequence [0]))
           None None
  = Raise (AttributeError "name")
  /\ __init__ Inputs.normal_class (Some "poisson") (Some 0) (Some NotSequence)
              None None
     = Raise (TypeError "Parameter ndims_params must be sequence type.").
Proof.
  destruct init_rejects as [Hname Hseq]. split.
  - apply Hname; [by right | reflexivity].
  - apply Hseq; [discriminate | by left].
Defined.

Lemma init_explicit_arguments_witness :
  __init__ Inputs.normal_class (Some "poisson") (Some 0) (Some (IsSequence [0]))
           (Some (DtStr "int64")) (Some true)
  = __init__ Inputs.bare_class (Some "poisson") (Some 0) (Some (IsSequence [0]))
             (Some (DtStr "int64")) (Some true).
Proof.
  apply (init_explicit_arguments Inputs.normal_class Inputs.bare_class
           "poisson" 0 [0] (DtStr "int64") true);
    [discriminate | reflexivity].
Defined.

Lemma init_dtype_precedes_make_node_witness :
  exists self,
    __init__ Inputs.normal_class None None None None None = Ok self
    /\ dtype self = Some (DtStr "floatX")
    /\ @make_node Reference.engine self None SizeNone (Some (DtStr "int8"))
         [Inputs.tensor "mu" []; Inputs.tensor "sigma" []]
       = @make_node Reference.engine self None SizeNone None
           [Inputs.tensor "mu" []; Inputs.tensor "sigma" []].
Proof.
  eexists. split; [reflexivity|].
  destruct (init_dtype_precedes_make_node (engine := Reference.engine)
              Inputs.normal_class None None None None None _ eq_refl)
    as (_ & Hcls & Hset & _).
  split; [apply Hcls; reflexivity|].
  apply Hset. right. reflexivity.
Defined.

Lemma destroy_map_is_honest_witness :
  exists self r m',
    __init__ Inputs.normal_class None None None None None = Ok self
    /\ @perform Reference.counter_runtime self ExecutionInputs.node 1%positive
         [] 11 [0; 1] ExecutionInputs.counter_memory = Some (r, m')
    /\ @generators Reference.counter_runtime m' !! 1%positive = Some 10.
Proof.
  eexists.
  destruct (destroy_map_is_honest (rt := Reference.counter_runtime)
              Inputs.normal_class None None None None None _
              ExecutionInputs.node 1%positive [] 11 [0; 1]
              ExecutionInputs.counter_memory 10 eq_refl eq_refl)
    as (r & m' & Hp & _ & Hkeep & _).
  exists r, m'. split; [reflexivity|]. split; [exact Hp|].
  apply Hkeep. reflexivity.
Defined.

Lemma str_shows_policy_not_dtype_witness :
  __str__ Inputs.normal_rv <> __str__ Inputs.inplace_rv.
Proof.
  destruct str_shows_policy_not_dtype as [Hpolicy _].
  intros Heq.
  apply (Hpolicy Inputs.normal_rv Inputs.inplace_rv
           eq_refl eq_refl eq_refl eq_refl) in Heq.
  discriminate Heq.
Defined.

Example str_normal_rv :
  __str__ Inputs.normal_rv = "normal_rv{0, (0, 0), floatX, False}"
  /\ __str__ Inputs.vector_rv = "dirichlet_rv{1, (1,), None, False}".
Proof. split; reflexivity. Qed.

(** ** The independent shape *)

Section IndependentShapeFacts.

Context {engine : GraphEngine}.

(** X19: for a scalar-support operation with an empty size, once the
    parameter shapes are broadcast and sliced, the shape is the independent
    shape alone: nothing without parameters, the sliced shape of a single
    parameter, and what [broadcast_shape_iter] returns or raises for several
    parameters. *)
Theorem infer_shape_scalar_support_empty_size (self : RandomVariable)
    (dist_params : list TensorVariable)
    (param_shapes : option (list (list ScalarVariable)))
    (bshapes : list (list ScalarVariable))
    (slices : list (TensorVariable * list ScalarVariable)) :
  ndim_supp self = 0 ->
  params_broadcast_shapes (param_shapes_or param_shapes dist_params)
                          (ndims_params self) = Ok bshapes ->
  mapM (fun a : TensorVariable * list ScalarVariable * Z =>
          slice_ind_dims a.1.1 a.1.2 a.2)
       (Py.zip3 dist_params bshapes (ndims_params self)) = Ok slices ->
  _infer_shape self [] dist_params param_shapes
  = match slices with
    | [] => Ok []
    | [(_, ind_shape)] => Ok ind_shape
    | _ :: _ :: _ => broadcast_shape_iter (slices.*2)
    end.
Proof.
  intros Hsupp Hb Hm. unfold _infer_shape, get_vector_length.
  rewrite Hsupp. change (Py.len (@nil ScalarVariable)) with 0.
  change ((0 =? 0) && (0 <? 0)) with false. cbv iota.
  rewrite Hb. cbn [bind]. rewrite Hm. cbn [bind].
  assert (Hnil : forall k, Py.slice_to (@nil ScalarVariable) k = []).
  { intros k. unfold Py.slice_to. by rewrite take_nil. }
  assert (Hfin : forall ind : list ScalarVariable,
    (do supp_reps <-
       (let shape_reps := @nil ScalarVariable in
        let shape_reps :=
          if 0 <? Py.len ind then Py.slice_to shape_reps (- Py.len ind)
          else shape_reps in
        Ok (@nil ScalarVariable, Py.len shape_reps, shape_reps));
     let '(shape_supp, ndim_reps, shape_reps) := supp_reps in
     let ndim_shape := 0 + Py.len ind + ndim_reps in
     if ndim_shape =? 0 then Ok []
     else
       match Some ind with
       | Some shape_ind => Ok (shape_reps ++ shape_ind ++ shape_supp)
       | None =>
           Raise (UnboundLocalError
             "local variable 'shape_ind' referenced before assignment")
       end) = Ok ind).
  { intros ind. cbv zeta. rewrite Hnil.
    replace (if 0 <? Py.len ind then @nil ScalarVariable else [])
      with (@nil ScalarVariable) by (by destruct (0 <? Py.len ind)).
    cbn [bind]. change (Py.len (@nil ScalarVariable)) with 0.
    destruct (Z.eqb_spec (0 + Py.len ind + 0) 0) as [Hz|Hz].
    - assert (ind = []) as -> by (apply len_zero; lia). done.
    - simpl. by rewrite app_nil_r. }
  destruct slices as [|[q ind] [|[q' ind'] rest]].
  - reflexivity.
  - cbn [bind]. apply Hfin.
  - destruct (broadcast_shape_iter (((q, ind) :: (q', ind') :: rest).*2))
      as [si|]; cbn [bind]; [apply Hfin | done].
Qed.

End IndependentShapeFacts.

Lemma infer_shape_scalar_support_empty_size_witness :
  @_infer_shape Reference.engine Inputs.normal_rv []
    [Inputs.tensor "mu" [3; 1]; Inputs.tensor "sigma" [1; 4]] None
  = Ok [Constant 3; Constant 4].
Proof.
  rewrite (infer_shape_scalar_support_empty_size (engine := Reference.engine)
             Inputs.normal_rv
             [Inputs.tensor "mu" [3; 1]; Inputs.tensor "sigma" [1; 4]] None
             _ _ eq_refl eq_refl eq_refl).
  reflexivity.
Defined.
